(** * REFITT web API: the response dispatcher of [refitt/web/api/response.py]

    A shallow embedding of the [endpoint] decorator, of the exception classes
    it dispatches on and of the [STATUS] and [RESPONSE_MAP] tables, followed
    by the authentication middleware that wraps the handlers. *)

From stdpp Require Import base decidable countable gmap strings list pretty.
From Stdlib Require Import ZArith Lia Ascii.

Set Warnings "-register-all".

Local Open Scope Z_scope.
Local Open Scope string_scope.

(** ** Exception classes

    [type(error)] is a class object.  The classes named here are the
    builtins in the ancestry of the registered kinds, the classes declared
    in response.py and the ones it imports; [Derived name base] is any other
    class, declared as [class name(base)] (a builtin such as [ValueError], a
    subclass made by a handler, ...). *)

Inductive PyClass : Type :=
  (* builtins *)
  | BaseException
  | Exception
  | RuntimeError
  | NotImplementedError
  (* from ...database.model import NotFound as RecordNotFound *)
  | RecordNotFound
  (* from ..token import ... *)
  | TokenNotFound
  | TokenInvalid
  | TokenExpired
  (* from .auth import ... *)
  | AuthenticationNotFound
  | AuthenticationInvalid
  | PermissionDenied
  (* response.py, lines 58-87 *)
  | WebException
  | NotFound
  | PayloadTooLarge
  | PayloadNotFound
  | PayloadMalformed
  | PayloadInvalid
  | ConstraintViolation
  | ParameterInvalid
  (* every other class *)
  | Derived (name : string) (base : PyClass).

#[global] Instance PyClass_eq_dec : EqDecision PyClass.
Proof. solve_decision. Defined.

(** The named classes, numbered, so that a class is a named class under a
    stack of [Derived] declarations. *)
Definition named_classes : list PyClass :=
  [ BaseException; Exception; RuntimeError; NotImplementedError;
    RecordNotFound; TokenNotFound; TokenInvalid; TokenExpired;
    AuthenticationNotFound; AuthenticationInvalid; PermissionDenied;
    WebException; NotFound; PayloadTooLarge; PayloadNotFound;
    PayloadMalformed; PayloadInvalid; ConstraintViolation; ParameterInvalid ].

Fixpoint class_code (c : PyClass) : nat * list string :=
  match c with
  | BaseException => (0, []) | Exception => (1, []) | RuntimeError => (2, [])
  | NotImplementedError => (3, []) | RecordNotFound => (4, [])
  | TokenNotFound => (5, []) | TokenInvalid => (6, []) | TokenExpired => (7, [])
  | AuthenticationNotFound => (8, []) | AuthenticationInvalid => (9, [])
  | PermissionDenied => (10, []) | WebException => (11, []) | NotFound => (12, [])
  | PayloadTooLarge => (13, []) | PayloadNotFound => (14, [])
  | PayloadMalformed => (15, []) | PayloadInvalid => (16, [])
  | ConstraintViolation => (17, []) | ParameterInvalid => (18, [])
  | Derived name base => let '(i, names) := class_code base in (i, name :: names)
  end%nat.

Definition class_of_code (p : nat * list string) : PyClass :=
  foldr Derived (default BaseException (named_classes !! p.1)) p.2.

#[global] Instance PyClass_countable : Countable PyClass.
Proof.
  refine (inj_countable' class_code class_of_code _).
  intros c.
  induction c as [| | | | | | | | | | | | | | | | | | | name base IH];
    try reflexivity.
  simpl. destruct (class_code base) as [i names].
  unfold class_of_code in *. simpl in *. by rewrite IH.
Defined.

(** Direct ancestry.  response.py declares [WebException(Exception)] and its
    seven subclasses; [NotImplementedError] is Python's, under [RuntimeError].
    The seven imported classes are declared outside response.py: the
    annotation [RESPONSE_MAP: Dict[Type[Exception], int]] places them under
    [Exception], which is what the [except Exception] clauses depend on. *)
Fixpoint ancestors (c : PyClass) : list PyClass :=
  match c with
  | BaseException => []
  | Exception => [BaseException]
  | RuntimeError => [Exception; BaseException]
  | NotImplementedError => [RuntimeError; Exception; BaseException]
  | RecordNotFound | TokenNotFound | TokenInvalid | TokenExpired
  | AuthenticationNotFound | AuthenticationInvalid | PermissionDenied
  | WebException => [Exception; BaseException]
  | NotFound | PayloadTooLarge | PayloadNotFound | PayloadMalformed
  | PayloadInvalid | ConstraintViolation | ParameterInvalid =>
      [WebException; Exception; BaseException]
  | Derived _ base => base :: ancestors base
  end.

(** [issubclass(c, k)]: [k] is [c] or one of its ancestors. *)
Definition issubclass (c k : PyClass) : bool :=
  bool_decide (k ∈ c :: ancestors c).

(** An exception object, as far as the dispatcher looks at it:
    [type(error)] and [str(error)]. *)
Record exc : Type := mk_exc { exc_type : PyClass; exc_str : string }.

(** [isinstance(error, k)] *)
Definition isinstance (error : exc) (k : PyClass) : bool :=
  issubclass (exc_type error) k.

(** ** The STATUS table (response.py, lines 39-55) *)

Definition STATUS : gmap string Z :=
  list_to_map
    [ ("OK", 200); ("Created", 201); ("No Content", 204);
      ("Bad Request", 400); ("Unauthorized", 401); ("Forbidden", 403);
      ("Not Found", 404); ("Method Not Allowed", 405);
      ("Payload Too Large", 413); ("I'm a teapot", 418);
      ("Too Many Requests", 429); ("Unavailable For Legal Reasons", 451);
      ("Internal Server Error", 500); ("Not Implemented", 501);
      ("Service Unavailable", 503) ].

(** ** The RESPONSE_MAP table (response.py, lines 90-106) *)

Definition RESPONSE_MAP : gmap PyClass Z :=
  list_to_map
    [ (TokenNotFound,          STATUS !!! "Forbidden");
      (AuthenticationNotFound, STATUS !!! "Forbidden");
      (TokenInvalid,           STATUS !!! "Forbidden");
      (AuthenticationInvalid,  STATUS !!! "Forbidden");
      (PermissionDenied,       STATUS !!! "Unauthorized");
      (TokenExpired,           STATUS !!! "Unauthorized");
      (RecordNotFound,         STATUS !!! "Not Found");
      (NotFound,               STATUS !!! "Not Found");
      (PayloadNotFound,        STATUS !!! "Bad Request");
      (PayloadMalformed,       STATUS !!! "Bad Request");
      (PayloadInvalid,         STATUS !!! "Bad Request");
      (ConstraintViolation,    STATUS !!! "Bad Request");
      (ParameterInvalid,       STATUS !!! "Bad Request");
      (NotImplementedError,    STATUS !!! "Not Implemented");
      (PayloadTooLarge,        STATUS !!! "Payload Too Large") ].

(** ** Values, requests and responses *)

(** JSON data, as [json.dumps] serialises it. *)
Inductive json : Type :=
  | JNull
  | JBool (b : bool)
  | JInt (n : Z)
  | JStr (s : string)
  | JList (items : list json)
  | JDict (items : list (string * json)).

(** A Python [dict] with string keys, in insertion order. *)
Abbreviation pydict V := (list (string * V)).

(** [d[key] = value]: an existing key keeps its place, a new one is added
    at the end. *)
Fixpoint dict_setitem {V} (d : pydict V) (key : string) (value : V) : pydict V :=
  match d with
  | [] => [(key, value)]
  | (k, v) :: rest =>
      if decide (k = key) then (k, value) :: rest
      else (k, v) :: dict_setitem rest key value
  end.

Abbreviation bytes := (list Byte.byte).

(** [ByteGenerator = Tuple[dict, Generator[None, bytes, None]]]: the headers
    and the chunks the generator yields. *)
Record ByteGenerator : Type := mk_ByteGenerator
  { gen_headers : pydict string; gen_stream : list bytes }.

(** What a route returns: [Union[dict, ByteGenerator]]. *)
Inductive RouteValue : Type :=
  | Payload (d : pydict json)
  | Stream (g : ByteGenerator).

(** The values the envelope of [format_json] holds: a [str], or what the
    route returned. *)
Inductive pyvalue : Type :=
  | Str (s : string)
  | Returned (v : RouteValue).

(** The body handed to [flask.Response]: the text [json.dumps] makes of a
    value, standing for that value, or the chunks of a generator. *)
Inductive Body : Type :=
  | JsonText (v : json)
  | Chunks (stream : list bytes).

Record Response : Type := mk_Response
  { body : Body; status : Z; mimetype : string; headers : pydict string }.

(** [Response(body, status=status, mimetype=mimetype)] *)
Definition Response_new (b : Body) (st : Z) (mt : string) : Response :=
  {| body := b; status := st; mimetype := mt; headers := [] |}.

(** [response.headers[key] = value] *)
Definition set_header (r : Response) (kv : string * string) : Response :=
  {| body := body r; status := status r; mimetype := mimetype r;
     headers := dict_setitem (headers r) kv.1 kv.2 |}.

(** The [Authorization] header of a request, by scheme. *)
Inductive Authorization : Type :=
  | Bearer (token : string)
  | Basic (key secret : string)
  | OtherScheme (value : string).

(** flask's [request], as far as the dispatcher and the middleware read it. *)
Record Request : Type := mk_Request
  { method : string; path : string;
    authorization : option Authorization; data : bytes }.

(** How a call ends: with a value or with an exception in flight. *)
Inductive outcome (A : Type) : Type :=
  | Returns (a : A)
  | Raises (error : exc).
Arguments Returns {A} a.
Arguments Raises {A} error.

(** A route, with flask's request as its argument. *)
Abbreviation Route := (Request -> outcome RouteValue).

(** A call of a decorated route: the lines it logs and how it ends.  A
    Python function that ends without [return] returns [None]. *)
Record Run : Type := mk_Run
  { logged : list string; result : outcome (option Response) }.

(** [f'{request.method} {request.path} {status}'] *)
Definition log_line (req : Request) (st : Z) : string :=
  method req ++ " " ++ path req ++ " " ++ pretty st.

Definition TypeError : PyClass := Derived "TypeError" Exception.
Definition ValueError : PyClass := Derived "ValueError" Exception.
Definition AttributeError : PyClass := Derived "AttributeError" Exception.

(** [json.dumps(d)] for an envelope [d]: the generator of a [ByteGenerator]
    is not JSON data, and [json.dumps] raises [TypeError] when it meets it. *)
Definition dumps_value (v : pyvalue) : outcome json :=
  match v with
  | Str s => Returns (JStr s)
  | Returned (Payload d) => Returns (JDict d)
  | Returned (Stream _) =>
      Raises (mk_exc TypeError "Object of type generator is not JSON serializable")
  end.

Fixpoint dumps_items (d : pydict pyvalue) : outcome (pydict json) :=
  match d with
  | [] => Returns []
  | (k, v) :: rest =>
      match dumps_value v with
      | Returns j =>
          match dumps_items rest with
          | Returns items => Returns ((k, j) :: items)
          | Raises error => Raises error
          end
      | Raises error => Raises error
      end
  end.

Definition json_dumps (d : pydict pyvalue) : outcome Body :=
  match dumps_items d with
  | Returns items => Returns (JsonText (JDict items))
  | Raises error => Raises error
  end.

(** ** The endpoint decorator (response.py, lines 113-175) *)

(** [type(error) in RESPONSE_MAP] *)
Definition in_RESPONSE_MAP (c : PyClass) : bool :=
  bool_decide (c ∈ dom RESPONSE_MAP).

(** [format_json] (lines 119-137).  The [try] statement leaves the status,
    the envelope and, when the [except Exception] clause does not apply,
    the exception still in flight; the [return] of the [finally] clause
    discards that exception. *)
Definition format_json (route : Route) (req : Request) : Run :=
  let status := STATUS !!! "OK" in
  let response := [("Status", Str "Success")] in
  let '(status, response, in_flight) :=
    match route req with
    | Returns value =>
        (status, dict_setitem response "Response" (Returned value), None)
    | Raises error =>
        if isinstance error Exception then
          if in_RESPONSE_MAP (exc_type error) then
            let response := dict_setitem response "Status" (Str "Error") in
            let response := dict_setitem response "Message" (Str (exc_str error)) in
            (RESPONSE_MAP !!! exc_type error, response, None)
          else
            let response := dict_setitem response "Status" (Str "Critical") in
            let response := dict_setitem response "Message" (Str (exc_str error)) in
            (STATUS !!! "Internal Server Error", response, None)
        else (status, response, Some error)
    end in
  (* finally *)
  {| logged := [log_line req status];
     result :=
       match json_dumps response with
       | Returns text =>
           Returns (Some (Response_new text status "application/json"))
       | Raises error => Raises error
       end |}.

(** [headers, stream = route(...)] and the rest of the [try]
    block of [format_stream] (lines 143-146).  A [dict] unpacks to its keys:
    with two of them the first, a [str], has no [items]; CPython 3.8 words
    the other cases as below. *)
Definition stream_try (route : Route) (req : Request) (status : Z)
  : outcome Response :=
  match route req with
  | Returns (Stream g) =>
      let response :=
        Response_new (Chunks (gen_stream g)) status "application/octet-stream" in
      Returns (foldl set_header response (gen_headers g))
  | Returns (Payload d) =>
      match d with
      | [] =>
          Raises (mk_exc ValueError "not enough values to unpack (expected 2, got 0)")
      | [_] =>
          Raises (mk_exc ValueError "not enough values to unpack (expected 2, got 1)")
      | [_; _] =>
          Raises (mk_exc AttributeError "'str' object has no attribute 'items'")
      | _ =>
          Raises (mk_exc ValueError "too many values to unpack (expected 2)")
      end
  | Raises error => Raises error
  end.

(** [format_stream] (lines 139-159).  Only the [except] clause has a
    [return]; the [finally] clause logs the status as it stands. *)
Definition format_stream (route : Route) (req : Request) : Run :=
  let status := STATUS !!! "OK" in
  match stream_try route req status with
  | Returns response =>
      (* the try block ends, the function ends: None *)
      {| logged := [log_line req status]; result := Returns None |}
  | Raises error =>
      if isinstance error Exception then
        let response := [] in
        let '(status, response) :=
          if in_RESPONSE_MAP (exc_type error) then
            (RESPONSE_MAP !!! exc_type error,
             dict_setitem response "Status" (Str "Error"))
          else
            (STATUS !!! "Internal Server Error",
             dict_setitem response "Status" (Str "Critical")) in
        let response := dict_setitem response "Message" (Str (exc_str error)) in
        match json_dumps response with
        | Returns text =>
            {| logged := [log_line req status];
               result := Returns (Some (Response_new text status "application/json")) |}
        | Raises error' =>
            {| logged := [log_line req status]; result := Raises error' |}
        end
      else
        {| logged := [log_line req status]; result := Raises error |}
  end.

(** [content_type_not_implemented] (lines 161-165) *)
Definition content_type_not_implemented (content_type : string)
    (route : Route) (req : Request) : Run :=
  {| logged := [];
     result :=
       match json_dumps
               [("Status", Str "Critical");
                ("Message", Str ("Content-type not defined: '" ++ content_type ++ "'"))]
       with
       | Returns text =>
           Returns (Some (Response_new text (STATUS !!! "Internal Server Error")
                            "application/json"))
       | Raises error => Raises error
       end |}.

(** [endpoint(content_type)(route)] (lines 113-175) *)
Definition endpoint (content_type : string) (route : Route) : Request -> Run :=
  if decide (content_type = "application/json") then format_json route
  else if decide (content_type = "application/octet-stream") then format_stream route
  else content_type_not_implemented content_type route.

(** ** Authentication middleware

    The token codec, the credential store and the two checks that wrap a
    handler, after sections 4.1 to 4.3 of the specification, with the
    messages the integration tests compare against. *)

(** Modelled from the spec: the token of section 3, [{subject, issued-at,
    expiry}]; the class [JWT] of token.py is missing. *)
Record Token : Type := mk_Token { sub : Z; iat : Z; exp : Z }.

(** Modelled from the spec: the client identity of section 3, with its
    permission level and its access-revocation flag; the class [Client] of
    database/model.py is missing. *)
Record Client : Type := mk_Client
  { client_id : Z; client_key : string; level : Z; revoked : bool }.

(** Modelled from the spec: what the token codec of section 4.1 leaves to
    cryptography and the clock, the signature check of a token string
    ([None] when the signature does not verify or the structure is
    malformed) and the current time; token.py is missing. *)
Record TokenCodec : Type := mk_TokenCodec
  { decode : string -> option Token; now : Z }.

(** Modelled from the spec: the record lookup and the credential store of
    sections 1 and 4.2, find-by-id (raising a NotFound-kind error), the
    lookup of a client by its key and the hash-based check of a secret;
    database/model.py is missing. *)
Record CredentialStore : Type := mk_CredentialStore
  { find_by_id : Z -> outcome Client;
    find_by_key : string -> option Client;
    secret_verifies : Client -> string -> bool }.

Definition double_quote : string := String "034"%char EmptyString.

(** Modelled from the spec: the truncated preview of a token of section 6,
    Python's [token[:3]] and [token[-3:]] joined by [...]; token.py is
    missing. *)
Definition token_preview (token : string) : string :=
  String.substring 0 3 token ++ "..."
    ++ String.substring (String.length token - 3) 3 token.

Section Middleware.

Variable codec : TokenCodec.
Variable store : CredentialStore.

(** Modelled from the spec: [decrypt] of section 4.1, failing with
    [TokenInvalid] when the signature does not verify and with
    [TokenExpired] when the current time exceeds the expiry; token.py is
    missing. *)
Definition decrypt (token : string) : outcome Token :=
  match decode codec token with
  | None =>
      Raises (mk_exc TokenInvalid ("Token invalid: '" ++ token_preview token ++ "'"))
  | Some t =>
      if (exp t <? now codec)%Z then Raises (mk_exc TokenExpired "Token expired")
      else Returns t
  end.

(** Modelled from the spec: the [authenticated] check of section 4.3;
    auth.py is missing.  A request without a bearer token fails with
    [TokenNotFound]; the token is decrypted, its subject resolved, and a
    revoked client is refused; the client is then the first argument of
    the route. *)
Definition authenticated (route : Client -> Route) : Route := fun req =>
  match authorization req with
  | Some (Bearer token) =>
      match decrypt token with
      | Returns t =>
          match find_by_id store (sub t) with
          | Returns client =>
              if revoked client then
                Raises (mk_exc PermissionDenied "Access has been revoked")
              else route client req
          | Raises error => Raises error
          end
      | Raises error => Raises error
      end
  | _ =>
      Raises (mk_exc TokenNotFound
                ("Expected " ++ double_quote ++ "Authorization: Bearer <token>"
                   ++ double_quote ++ " in header"))
  end.

(** Modelled from the spec: the credential check of section 4.2, the
    key/secret login; auth.py is missing.  No pair fails with
    [AuthenticationNotFound], an unknown key or a secret that does not
    verify with [AuthenticationInvalid], and a revoked client is
    refused. *)
Definition authenticate (route : Client -> Route) : Route := fun req =>
  match authorization req with
  | Some (Basic key secret) =>
      match find_by_key store key with
      | Some client =>
          if secret_verifies store client secret then
            if revoked client then
              Raises (mk_exc PermissionDenied "Access has been revoked")
            else route client req
          else Raises (mk_exc AuthenticationInvalid "Client secret invalid")
      | None => Raises (mk_exc AuthenticationInvalid "Client key invalid")
      end
  | _ => Raises (mk_exc AuthenticationNotFound "Missing key:secret in header")
  end.

End Middleware.

(** ** The user endpoints (endpoint/user.py)

    The handlers the [endpoint] decorator wraps.  The data model they call
    (database/model.py) and the two library functions they use are taken as
    given: a handler is run against the answers of its collaborators, and
    the calls it makes on the data model are recorded in order. *)

Definition JSONDecodeError : PyClass := Derived "JSONDecodeError" ValueError.
Definition IndexError : PyClass :=
  Derived "IndexError" (Derived "LookupError" Exception).

(** A [User] and a [Facility] record as the handlers see them: the [id]
    attribute and what [to_json()] returns. *)
Record UserObj : Type := mk_UserObj
  { User_id : Z; User_to_json : pydict json }.

Record FacilityObj : Type := mk_FacilityObj
  { Facility_id : Z; Facility_to_json : pydict json }.

(** The calls of the handlers on the data model. *)
Inductive Call : Type :=
  (* the constructor, with the profile as keyword arguments *)
  | Call_User (profile : pydict json)
  (* User.add(profile) *)
  | Call_add (profile : pydict json)
  (* User.update(id, ...), with the fields as keyword arguments *)
  | Call_update (id : json) (fields : pydict json)
  (* User.delete(id) *)
  | Call_delete (id : Z)
  (* User.from_id(id) and User.from_alias(alias) *)
  | Call_from_id (id : Z)
  | Call_from_alias (alias : string)
  (* user.facilities(), user.add_facility(id), user.delete_facility(id) *)
  | Call_facilities (user : UserObj)
  | Call_add_facility (user : UserObj) (id : Z)
  | Call_delete_facility (user : UserObj) (id : Z).

(** The calls that change the database. *)
Definition is_write (c : Call) : bool :=
  match c with
  | Call_add _ | Call_update _ _ | Call_delete _
  | Call_add_facility _ _ | Call_delete_facility _ _ => true
  | Call_User _ | Call_from_id _ | Call_from_alias _ | Call_facilities _ => false
  end.

(** What the collaborators answer: [IntegrityError] as database/model.py
    exports it, [str(error.args[0])] ([None] for empty [args]),
    [json.loads(payload.decode())], [int(text)] ([None] when it raises
    [ValueError]), and the methods of [User]. *)
Record DataModel : Type := mk_DataModel
  { IntegrityError : PyClass;
    args0 : exc -> option string;
    json_loads : bytes -> outcome json;
    py_int : string -> option Z;
    User_new : pydict json -> outcome unit;
    User_add : pydict json -> outcome Z;
    User_update : json -> pydict json -> outcome unit;
    User_delete : Z -> outcome unit;
    User_from_id : Z -> outcome UserObj;
    User_from_alias : string -> outcome UserObj;
    User_facilities : UserObj -> outcome (list FacilityObj);
    User_add_facility : UserObj -> Z -> outcome unit;
    User_delete_facility : UserObj -> Z -> outcome unit }.

(** A handler's run: the calls made, in order, and how it ends. *)
Definition Ask (A : Type) : Type := (list Call * outcome A)%type.

Definition asked {A} (m : Ask A) : list Call := m.1.
Definition answer {A} (m : Ask A) : outcome A := m.2.

#[global] Instance Ask_ret : MRet Ask := fun A a => ([], Returns a).

#[global] Instance Ask_bind : MBind Ask := fun A B f m =>
  match m with
  | (calls, Returns a) => let '(calls', r) := f a in ((calls ++ calls')%list, r)
  | (calls, Raises error) => (calls, Raises error)
  end.

(** [raise error] *)
Definition raise {A} (error : exc) : Ask A := ([], Raises error).

(** A call on the data model and its answer. *)
Definition call {A} (c : Call) (a : outcome A) : Ask A := ([c], a).

(** [try: body / except cls as error: handler] *)
Definition try_except {A} (body : Ask A) (cls : PyClass) (handler : exc -> Ask A)
  : Ask A :=
  match body with
  | (calls, Raises error) =>
      if isinstance error cls then
        let '(calls', r) := handler error in ((calls ++ calls')%list, r)
      else (calls, Raises error)
  | _ => body
  end.

(** [d.get(key)] *)
Fixpoint dict_get {V} (d : pydict V) (key : string) : option V :=
  match d with
  | [] => None
  | (k, v) :: rest => if decide (k = key) then Some v else dict_get rest key
  end.

(** [del d[key]], for a key that may be absent *)
Fixpoint dict_remove {V} (d : pydict V) (key : string) : pydict V :=
  match d with
  | [] => []
  | (k, v) :: rest =>
      if decide (k = key) then dict_remove rest key
      else (k, v) :: dict_remove rest key
  end.

(** [bool(value)] for JSON data *)
Definition truthy (value : json) : bool :=
  match value with
  | JNull => false
  | JBool b => b
  | JInt n => negb (n =? 0)%Z
  | JStr s => negb (bool_decide (s = EmptyString))
  | JList items => match items with [] => false | _ => true end
  | JDict items => match items with [] => false | _ => true end
  end.

Section UserEndpoints.

Variable dm : DataModel.

(** [except IntegrityError as error:
       raise ConstraintViolation(str(error.args[0])) from error];
    indexing empty [args] raises [IndexError] instead. *)
Definition constraint_violation {A} (error : exc) : Ask A :=
  match args0 dm error with
  | Some text => raise (mk_exc ConstraintViolation text)
  | None => raise (mk_exc IndexError "tuple index out of range")
  end.

(** [add_user] (user.py, lines 44-68).  Passing a value that is not a dict
    as keyword arguments raises [TypeError], which the second [except] clause
    turns into [PayloadInvalid] like the constructor's own [TypeError]. *)
Definition add_user (admin : Client) (req : Request) : Ask RouteValue :=
  let payload := data req in
  match payload with
  | [] => raise (mk_exc PayloadNotFound "Missing JSON data")
  | _ =>
    profile ← try_except ([], json_loads dm payload) JSONDecodeError
                (fun _ => raise (mk_exc PayloadMalformed "Invalid JSON data"));
    profile ← match profile with
              | JDict d =>
                  try_except (call (Call_User d) (User_new dm d) ≫= fun _ => mret d)
                    TypeError
                    (fun _ => raise (mk_exc PayloadInvalid
                                       "Invalid parameters in JSON data"))
              | _ => raise (mk_exc PayloadInvalid "Invalid parameters in JSON data")
              end;
    user_id ← try_except
                (let user_id := default JNull (dict_get profile "id") in
                 let profile := dict_remove profile "id" in
                 if negb (truthy user_id) then
                   new_id ← call (Call_add profile) (User_add dm profile);
                   mret (JInt new_id)
                 else
                   call (Call_update user_id profile) (User_update dm user_id profile)
                     ≫= fun _ => mret user_id)
                (IntegrityError dm) constraint_violation;
    mret (Payload [("user", JDict [("id", user_id)])])
  end.

(** [get_user] (user.py, lines 97-108).  [int(id_or_alias)] raising
    [ValueError] and a [ValueError] out of the lookup by id both lead to
    the lookup by alias. *)
Definition get_user (admin : Client) (id_or_alias : string) : Ask RouteValue :=
  let by_alias : Ask RouteValue :=
    user ← call (Call_from_alias id_or_alias) (User_from_alias dm id_or_alias);
    mret (Payload [("user", JDict (User_to_json user))]) in
  match py_int dm id_or_alias with
  | Some user_id =>
      try_except
        (user ← call (Call_from_id user_id) (User_from_id dm user_id);
         mret (Payload [("user", JDict (User_to_json user))]))
        ValueError (fun _ => by_alias)
  | None => by_alias
  end.

(** [delete_user] (user.py, lines 205-215) *)
Definition delete_user (admin : Client) (user_id : Z) : Ask RouteValue :=
  _ ← try_except (call (Call_delete user_id) (User_delete dm user_id))
        (IntegrityError dm) constraint_violation;
  mret (Payload [("user", JDict [("id", JInt user_id)])]).

(** [get_all_user_facilities] (user.py, lines 239-250) *)
Definition get_all_user_facilities (admin : Client) (user_id : Z) : Ask RouteValue :=
  user ← call (Call_from_id user_id) (User_from_id dm user_id);
  facilities ← call (Call_facilities user) (User_facilities dm user);
  mret (Payload [("facility",
                  JList ((fun facility => JDict (Facility_to_json facility))
                           <$> facilities))]).

(** [get_user_facility] (user.py, lines 280-291); [NotFound] is the class
    of database/model.py here, [RecordNotFound] in response.py. *)
Definition get_user_facility (admin : Client) (user_id facility_id : Z)
  : Ask RouteValue :=
  user ← call (Call_from_id user_id) (User_from_id dm user_id);
  all ← call (Call_facilities user) (User_facilities dm user);
  let facilities :=
    (fun facility => JDict (Facility_to_json facility))
      <$> filter (fun facility => Facility_id facility = facility_id) all in
  match facilities with
  | [] =>
      raise (mk_exc RecordNotFound
               ("Facility (" ++ pretty facility_id
                  ++ ") not associated with user (" ++ pretty user_id ++ ")"))
  | first :: _ => mret (Payload [("facility", first)])
  end.

(** [add_user_facility_association] (user.py, lines 325-332) *)
Definition add_user_facility_association (admin : Client) (user_id facility_id : Z)
  : Ask RouteValue :=
  user ← call (Call_from_id user_id) (User_from_id dm user_id);
  _ ← call (Call_add_facility user facility_id)
        (User_add_facility dm user facility_id);
  mret (Payload []).

(** [delete_user_facility_association] (user.py, lines 360-367) *)
Definition delete_user_facility_association (admin : Client)
    (user_id facility_id : Z) : Ask RouteValue :=
  user ← call (Call_from_id user_id) (User_from_id dm user_id);
  _ ← call (Call_delete_facility user facility_id)
        (User_delete_facility dm user facility_id);
  mret (Payload []).

End UserEndpoints.

(** A handler as the route the decorator wraps. *)
Definition served (handler : Request -> Ask RouteValue) : Route :=
  fun req => answer (handler req).

(** ** The specification's side *)

(** The error envelope as the specification words it: a JSON object with
    [Status] and [Message], sent as application/json with a status code. *)
Definition error_response (code : Z) (text message : string) : Response :=
  {| body := JsonText (JDict [("Status", JStr text); ("Message", JStr message)]);
     status := code; mimetype := "application/json"; headers := [] |}.

(** The success envelope: status 200 and the handler's dict under
    [Response]. *)
Definition success_response (d : pydict json) : Response :=
  {| body := JsonText (JDict [("Status", JStr "Success"); ("Response", JDict d)]);
     status := 200; mimetype := "application/json"; headers := [] |}.

(** The taxonomy table of section 6 of the specification. *)
Definition taxonomy : list (PyClass * Z) :=
  [ (TokenNotFound, 403); (AuthenticationNotFound, 403); (TokenInvalid, 403);
    (AuthenticationInvalid, 403); (PermissionDenied, 401); (TokenExpired, 401);
    (RecordNotFound, 404); (NotFound, 404); (PayloadNotFound, 400);
    (PayloadMalformed, 400); (PayloadInvalid, 400); (ConstraintViolation, 400);
    (ParameterInvalid, 400); (NotImplementedError, 501); (PayloadTooLarge, 413) ].

(** The status and the [Status] text the specification gives an error of
    class [c]: the table's code and "Error", or 500 and "Critical". *)
Definition mapped_status (c : PyClass) : Z :=
  default 500 ((list_to_map taxonomy : gmap PyClass Z) !! c).

Definition status_text (c : PyClass) : string :=
  if decide (c ∈ taxonomy.*1) then "Error" else "Critical".

(** The text of the [TokenNotFound] error. *)
Definition bearer_expected : string :=
  "Expected " ++ double_quote ++ "Authorization: Bearer <token>" ++ double_quote
    ++ " in header".

(** ** Sample inputs *)

Definition sample_request : Request :=
  {| method := "GET"; path := "/user/1"; authorization := None; data := [] |}.

Definition download : ByteGenerator :=
  {| gen_headers := [("Content-Disposition", "attachment; filename=data.bin")];
     gen_stream := [[Byte.x52; Byte.x45]; [Byte.x46]] |}.

Definition KeyboardInterrupt : PyClass := Derived "KeyboardInterrupt" BaseException.

Definition interrupted : Route :=
  fun _ => Raises (mk_exc KeyboardInterrupt EmptyString).

(** A codec and a store to run the middleware on: one token, valid until
    time 100, for client 1, whose access is revoked. *)
Definition demo_codec : TokenCodec :=
  {| decode := fun token =>
       if decide (token = "good-token") then Some (mk_Token 1 0 100) else None;
     now := 50 |}.

Definition demo_client : Client :=
  {| client_id := 1; client_key := "key-1"; level := 1; revoked := true |}.

Definition demo_store : CredentialStore :=
  {| find_by_id := fun id =>
       if decide (id = 1) then Returns demo_client
       else Raises (mk_exc RecordNotFound "No client with id");
     find_by_key := fun key =>
       if decide (key = "key-1") then Some demo_client else None;
     secret_verifies := fun _ secret => bool_decide (secret = "secret-1") |}.

Definition demo_route : Client -> Route :=
  fun client _ => Returns (Payload [("client", JInt (client_id client))]).

Definition with_authorization (a : option Authorization) : Request :=
  {| method := "GET"; path := "/user/1"; authorization := a; data := [] |}.

(** A data model to run the handlers on: one user, lara, with id 1 and two
    facilities; the alias "taken" is refused by the database. *)
Definition lara : UserObj :=
  {| User_id := 1; User_to_json := [("id", JInt 1); ("alias", JStr "lara")] |}.

Definition demo_facilities : list FacilityObj :=
  [ {| Facility_id := 4; Facility_to_json := [("id", JInt 4); ("name", JStr "CTIO")] |};
    {| Facility_id := 5; Facility_to_json := [("id", JInt 5); ("name", JStr "KPNO")] |} ].

Definition demo_IntegrityError : PyClass := Derived "IntegrityError" Exception.

Definition payload_new : bytes :=
  String.list_byte_of_string
    ("{" ++ double_quote ++ "alias" ++ double_quote ++ ": "
       ++ double_quote ++ "croft" ++ double_quote ++ "}").

Definition payload_zero : bytes :=
  String.list_byte_of_string
    ("{" ++ double_quote ++ "id" ++ double_quote ++ ": 0, "
       ++ double_quote ++ "alias" ++ double_quote ++ ": "
       ++ double_quote ++ "croft" ++ double_quote ++ "}").

Definition payload_update : bytes :=
  String.list_byte_of_string
    ("{" ++ double_quote ++ "id" ++ double_quote ++ ": 1, "
       ++ double_quote ++ "alias" ++ double_quote ++ ": "
       ++ double_quote ++ "taken" ++ double_quote ++ "}").

Definition payload_rename : bytes :=
  String.list_byte_of_string
    ("{" ++ double_quote ++ "id" ++ double_quote ++ ": 1, "
       ++ double_quote ++ "alias" ++ double_quote ++ ": "
       ++ double_quote ++ "lara" ++ double_quote ++ "}").

Definition payload_list : bytes := String.list_byte_of_string "[1, 2]".

Definition payload_garbage : bytes := String.list_byte_of_string "{alias".

Definition payload_latin1 : bytes := [Byte.xe9].

#[global] Instance byte_eq_dec : EqDecision Byte.byte := Strings.Byte.byte_eq_dec.

Definition demo_loads (payload : bytes) : outcome json :=
  if decide (payload = payload_new) then
    Returns (JDict [("alias", JStr "croft")])
  else if decide (payload = payload_zero) then
    Returns (JDict [("id", JInt 0); ("alias", JStr "croft")])
  else if decide (payload = payload_update) then
    Returns (JDict [("id", JInt 1); ("alias", JStr "taken")])
  else if decide (payload = payload_rename) then
    Returns (JDict [("id", JInt 1); ("alias", JStr "lara")])
  else if decide (payload = payload_list) then
    Returns (JList [JInt 1; JInt 2])
  else if decide (payload = payload_latin1) then
    Raises (mk_exc (Derived "UnicodeDecodeError" (Derived "UnicodeError" ValueError))
              "'utf-8' codec can't decode byte 0xe9 in position 0: unexpected end of data")
  else
    Raises (mk_exc JSONDecodeError
              "Expecting property name enclosed in double quotes: line 1 column 2 (char 1)").

Definition alias_taken (profile : pydict json) : bool :=
  match dict_get profile "alias" with
  | Some (JStr alias) => bool_decide (alias = "taken")
  | _ => false
  end.

Definition demo_model : DataModel :=
  {| IntegrityError := demo_IntegrityError;
     args0 := fun error => Some (exc_str error);
     json_loads := demo_loads;
     py_int := fun text =>
       if decide (text = "1") then Some 1
       else if decide (text = "9") then Some 9 else None;
     User_new := fun profile =>
       match dict_get profile "alias" with
       | Some _ => Returns tt
       | None =>
           Raises (mk_exc TypeError
                     "__init__() missing 1 required positional argument: 'alias'")
       end;
     User_add := fun profile =>
       if alias_taken profile then
         Raises (mk_exc demo_IntegrityError "duplicate key value")
       else Returns 7;
     User_update := fun id profile =>
       if alias_taken profile then
         Raises (mk_exc demo_IntegrityError "duplicate key value")
       else Returns tt;
     User_delete := fun id =>
       if decide (id = 1) then
         Raises (mk_exc demo_IntegrityError "user is referenced by a facility")
       else Returns tt;
     User_from_id := fun id =>
       if decide (id = 1) then Returns lara
       else Raises (mk_exc RecordNotFound "No user with that id");
     User_from_alias := fun alias =>
       if decide (alias = "lara") then Returns lara
       else Raises (mk_exc RecordNotFound "No user with that alias");
     User_facilities := fun _ => Returns demo_facilities;
     User_add_facility := fun _ _ => Returns tt;
     User_delete_facility := fun _ _ => Returns tt |}.

Definition with_data (payload : bytes) : Request :=
  {| method := "POST"; path := "/user"; authorization := None; data := payload |}.

(** ** Properties *)

(** A decidable statement about closed terms, settled by evaluation. *)
Ltac decide_closed := apply (bool_decide_unpack _); vm_compute; reflexivity.

(** *** The tables *)

Example status_ok : STATUS !!! "OK" = 200.
Proof. vm_compute. reflexivity. Qed.

Example response_map_not_found : RESPONSE_MAP !! NotFound = Some 404.
Proof. vm_compute. reflexivity. Qed.

Example response_map_web_exception : RESPONSE_MAP !! WebException = None.
Proof. vm_compute. reflexivity. Qed.

Example preview_bad_token : token_preview "bad-token" = "bad...ken".
Proof. reflexivity. Qed.

Example preview_short_token : token_preview "ab" = "ab...ab".
Proof. reflexivity. Qed.

Lemma RESPONSE_MAP_taxonomy : RESPONSE_MAP = list_to_map taxonomy.
Proof. vm_compute. reflexivity. Qed.

Lemma taxonomy_NoDup : NoDup taxonomy.*1.
Proof. decide_closed. Qed.

Lemma in_RESPONSE_MAP_taxonomy c :
  in_RESPONSE_MAP c = true <-> c ∈ taxonomy.*1.
Proof.
  unfold in_RESPONSE_MAP. rewrite bool_decide_eq_true, RESPONSE_MAP_taxonomy.
  rewrite dom_list_to_map_L. apply elem_of_list_to_set.
Qed.

(** *** Class ancestry *)

Lemma issubclass_elem c k : issubclass c k = true <-> k ∈ c :: ancestors c.
Proof. unfold issubclass. apply bool_decide_eq_true. Qed.

(** The ancestors of an ancestor are ancestors. *)
Lemma ancestors_closed c k : k ∈ ancestors c -> ancestors k ⊆ ancestors c.
Proof.
  induction c as [| | | | | | | | | | | | | | | | | | | name base IH];
    simpl; intros Hk.
  20: { apply list_subseteq_cons.
        apply elem_of_cons in Hk as [-> | Hk]; [reflexivity | by apply IH]. }
  all: repeat (apply elem_of_cons in Hk as [-> | Hk];
               [ decide_closed |]).
  all: by apply elem_of_nil in Hk.
Qed.

Lemma issubclass_trans c k j :
  issubclass c k = true -> issubclass k j = true -> issubclass c j = true.
Proof.
  rewrite !issubclass_elem. intros Hk Hj.
  apply elem_of_cons in Hk as [-> | Hk]; [done |].
  apply elem_of_cons in Hj as [-> | Hj]; [set_solver |].
  apply elem_of_cons. right. by apply (ancestors_closed c k).
Qed.

(** Every registered kind is a subclass of [Exception], and none has a
    registered class among its ancestors: the taxonomy is flat. *)
Lemma taxonomy_issubclass_Exception k :
  k ∈ taxonomy.*1 -> issubclass k Exception = true.
Proof.
  simpl. intros Hk.
  repeat (apply elem_of_cons in Hk as [-> | Hk]; [reflexivity |]).
  by apply elem_of_nil in Hk.
Qed.

Lemma taxonomy_flat k j :
  k ∈ taxonomy.*1 -> j ∈ ancestors k -> j ∉ taxonomy.*1.
Proof.
  simpl. intros Hk Hj.
  repeat (apply elem_of_cons in Hk as [-> | Hk];
          [ simpl in Hj;
            repeat (apply elem_of_cons in Hj as [-> | Hj];
                    [ decide_closed |]);
            by apply elem_of_nil in Hj |]).
  by apply elem_of_nil in Hk.
Qed.

(** A proper subclass of a registered kind is not registered itself. *)
Lemma proper_subclass_unregistered c k :
  k ∈ taxonomy.*1 -> k ∈ ancestors c -> c ∉ taxonomy.*1.
Proof.
  intros Hk Hc Hreg. by apply (taxonomy_flat c k).
Qed.

(** *** The two [except] clauses *)

Lemma RESPONSE_MAP_lookup_total k code :
  (k, code) ∈ taxonomy -> RESPONSE_MAP !!! k = code.
Proof.
  intros Hk. apply lookup_total_correct. rewrite RESPONSE_MAP_taxonomy.
  by apply elem_of_list_to_map; [apply taxonomy_NoDup |].
Qed.

Lemma taxonomy_key k code : (k, code) ∈ taxonomy -> k ∈ taxonomy.*1.
Proof. intros Hk. apply list_elem_of_fmap. by exists (k, code). Qed.

Lemma in_RESPONSE_MAP_false c : c ∉ taxonomy.*1 -> in_RESPONSE_MAP c = false.
Proof.
  intros Hc. destruct (in_RESPONSE_MAP c) eqn:E; [| done].
  by apply in_RESPONSE_MAP_taxonomy in E.
Qed.

Lemma format_json_registered route req error code :
  route req = Raises error -> (exc_type error, code) ∈ taxonomy ->
  format_json route req =
    mk_Run [log_line req code]
      (Returns (Some (error_response code "Error" (exc_str error)))).
Proof.
  intros Hraise Hk. pose proof (taxonomy_key _ _ Hk) as Hdom.
  unfold format_json, isinstance. rewrite Hraise.
  rewrite (taxonomy_issubclass_Exception _ Hdom).
  rewrite (proj2 (in_RESPONSE_MAP_taxonomy _) Hdom).
  by rewrite (RESPONSE_MAP_lookup_total _ _ Hk).
Qed.

Lemma format_json_unregistered route req error :
  route req = Raises error -> isinstance error Exception = true ->
  exc_type error ∉ taxonomy.*1 ->
  format_json route req =
    mk_Run [log_line req 500]
      (Returns (Some (error_response 500 "Critical" (exc_str error)))).
Proof.
  intros Hraise Hexc Hout. unfold format_json. rewrite Hraise, Hexc.
  by rewrite (in_RESPONSE_MAP_false _ Hout).
Qed.

Lemma format_stream_registered route req error code :
  route req = Raises error -> (exc_type error, code) ∈ taxonomy ->
  format_stream route req =
    mk_Run [log_line req code]
      (Returns (Some (error_response code "Error" (exc_str error)))).
Proof.
  intros Hraise Hk. pose proof (taxonomy_key _ _ Hk) as Hdom.
  unfold format_stream, stream_try, isinstance. rewrite Hraise.
  rewrite (taxonomy_issubclass_Exception _ Hdom).
  rewrite (proj2 (in_RESPONSE_MAP_taxonomy _) Hdom).
  by rewrite (RESPONSE_MAP_lookup_total _ _ Hk).
Qed.

Lemma format_stream_unregistered route req error :
  route req = Raises error -> isinstance error Exception = true ->
  exc_type error ∉ taxonomy.*1 ->
  format_stream route req =
    mk_Run [log_line req 500]
      (Returns (Some (error_response 500 "Critical" (exc_str error)))).
Proof.
  intros Hraise Hexc Hout. unfold format_stream, stream_try.
  rewrite Hraise, Hexc. by rewrite (in_RESPONSE_MAP_false _ Hout).
Qed.

(** An exception outside [Exception] passes both [except] clauses: the
    [finally] of [format_json] returns all the same, [format_stream] lets it
    through. *)
Lemma format_stream_not_caught route req error :
  route req = Raises error -> isinstance error Exception = false ->
  format_stream route req = mk_Run [log_line req 200] (Raises error).
Proof.
  intros Hraise Hexc. unfold format_stream, stream_try.
  by rewrite Hraise, Hexc.
Qed.

Lemma format_json_returns_response route req error :
  route req = Raises error ->
  exists r, result (format_json route req) = Returns (Some r).
Proof.
  intros Hraise. unfold format_json. rewrite Hraise.
  destruct (isinstance error Exception), (in_RESPONSE_MAP (exc_type error));
    simpl; eauto.
Qed.

Lemma endpoint_json route : endpoint "application/json" route = format_json route.
Proof. reflexivity. Qed.

Lemma endpoint_stream route :
  endpoint "application/octet-stream" route = format_stream route.
Proof. reflexivity. Qed.

(** *** The dispatcher *)

(** C1.  Under the JSON-mode decorator, a handler that raises an error whose
    class is in the taxonomy table gets the table's code as HTTP status, with
    [Status] "Error" and [Message] the error's text; a handler that raises
    an error (an instance of [Exception], as the [except] clause has it)
    whose class is not in the table gets 500 with [Status] "Critical". *)
Theorem json_error_dispatch (route : Route) (req : Request) (error : exc) :
  route req = Raises error ->
  (forall code, (exc_type error, code) ∈ taxonomy ->
     result (endpoint "application/json" route req) =
       Returns (Some (error_response code "Error" (exc_str error)))) /\
  (exc_type error ∉ taxonomy.*1 -> isinstance error Exception = true ->
     result (endpoint "application/json" route req) =
       Returns (Some (error_response 500 "Critical" (exc_str error)))).
Proof.
  intros Hraise. rewrite endpoint_json. split.
  - intros code Hk. by rewrite (format_json_registered _ _ _ _ Hraise Hk).
  - intros Hout Hexc. by rewrite (format_json_unregistered _ _ _ Hraise Hexc Hout).
Qed.

Lemma json_error_dispatch_witness :
  result (endpoint "application/json"
            (fun _ => Raises (mk_exc PayloadTooLarge "too big")) sample_request) =
    Returns (Some (error_response 413 "Error" "too big")) /\
  result (endpoint "application/json"
            (fun _ => Raises (mk_exc ValueError "bad value")) sample_request) =
    Returns (Some (error_response 500 "Critical" "bad value")).
Proof.
  split.
  - apply (json_error_dispatch (fun _ => Raises (mk_exc PayloadTooLarge "too big"))
             sample_request (mk_exc PayloadTooLarge "too big") eq_refl).
    decide_closed.
  - apply (json_error_dispatch (fun _ => Raises (mk_exc ValueError "bad value"))
             sample_request (mk_exc ValueError "bad value") eq_refl).
    + decide_closed.
    + vm_compute. reflexivity.
Defined.

(** C7.  Under the JSON-mode decorator, a handler that returns normally
    with the dict [v] gets HTTP status 200 and a JSON body whose [Status] is
    "Success" and whose [Response] is [v]. *)
Theorem json_success (route : Route) (req : Request) (v : pydict json) :
  route req = Returns (Payload v) ->
  result (endpoint "application/json" route req) =
    Returns (Some {| body := JsonText (JDict [("Status", JStr "Success");
                                              ("Response", JDict v)]);
                     status := 200; mimetype := "application/json";
                     headers := [] |}).
Proof.
  intros Hret. rewrite endpoint_json. unfold format_json. by rewrite Hret.
Qed.

Lemma json_success_witness :
  result (endpoint "application/json"
            (fun _ => Returns (Payload [("user", JDict [("id", JInt 7)])]))
            sample_request) =
    Returns (Some {| body := JsonText (JDict [("Status", JStr "Success");
                       ("Response", JDict [("user", JDict [("id", JInt 7)])])]);
                     status := 200; mimetype := "application/json";
                     headers := [] |}).
Proof.
  apply (json_success (fun _ => Returns (Payload [("user", JDict [("id", JInt 7)])]))
           sample_request [("user", JDict [("id", JInt 7)])]).
  reflexivity.
Defined.

(** C9.  For a content type other than application/json and
    application/octet-stream the decorated route answers every request,
    whatever the request and the route, with HTTP 500 and the JSON body
    [Status] "Critical", [Message] "Content-type not defined: '...'" (the
    content type between the quotes). *)
Theorem unknown_content_type (content_type : string) (route : Route) (req : Request) :
  content_type ≠ "application/json" ->
  content_type ≠ "application/octet-stream" ->
  endpoint content_type route req =
    mk_Run [] (Returns (Some (error_response 500 "Critical"
                 ("Content-type not defined: '" ++ content_type ++ "'")))).
Proof.
  intros Hjson Hstream. unfold endpoint.
  destruct (decide (content_type = "application/json")); [done |].
  destruct (decide (content_type = "application/octet-stream")); [done |].
  reflexivity.
Qed.

Lemma unknown_content_type_witness :
  endpoint "text/html" (fun _ => Returns (Payload [])) sample_request =
    mk_Run [] (Returns (Some (error_response 500 "Critical"
                 "Content-type not defined: 'text/html'"))).
Proof.
  apply (unknown_content_type "text/html" (fun _ => Returns (Payload []))
           sample_request); intros H; discriminate H.
Defined.

Lemma format_stream_caught route req error :
  route req = Raises error -> isinstance error Exception = true ->
  format_stream route req =
    mk_Run [log_line req (mapped_status (exc_type error))]
      (Returns (Some (error_response (mapped_status (exc_type error))
                        (status_text (exc_type error)) (exc_str error)))).
Proof.
  intros Hraise Hexc. unfold mapped_status, status_text.
  destruct (decide (exc_type error ∈ taxonomy.*1)) as [Hin | Hout].
  - apply list_elem_of_fmap in Hin as [[k code] [Hk Hin]]. simpl in Hk. subst k.
    rewrite (proj1 (elem_of_list_to_map _ _ _ taxonomy_NoDup) Hin). simpl.
    by apply format_stream_registered.
  - rewrite (proj1 (not_elem_of_list_to_map _ _) Hout). simpl.
    by apply format_stream_unregistered.
Qed.

Lemma format_json_caught route req error :
  route req = Raises error -> isinstance error Exception = true ->
  format_json route req =
    mk_Run [log_line req (mapped_status (exc_type error))]
      (Returns (Some (error_response (mapped_status (exc_type error))
                        (status_text (exc_type error)) (exc_str error)))).
Proof.
  intros Hraise Hexc. unfold mapped_status, status_text.
  destruct (decide (exc_type error ∈ taxonomy.*1)) as [Hin | Hout].
  - apply list_elem_of_fmap in Hin as [[k code] [Hk Hin]]. simpl in Hk. subst k.
    rewrite (proj1 (elem_of_list_to_map _ _ _ taxonomy_NoDup) Hin). simpl.
    by apply format_json_registered.
  - rewrite (proj1 (not_elem_of_list_to_map _ _) Hout). simpl.
    by apply format_json_unregistered.
Qed.

(** C6.  For an error raised by the handler (an instance of [Exception]) the
    streaming-mode decorator answers as the JSON-mode decorator does: the same
    run, hence the same status (the table's code, or 500), the same [Status]
    ("Error" or "Critical") and [Message] the error's text, as an
    application/json body. *)
Theorem stream_error_as_json (route : Route) (req : Request) (error : exc) :
  route req = Raises error -> isinstance error Exception = true ->
  endpoint "application/octet-stream" route req =
    endpoint "application/json" route req /\
  result (endpoint "application/octet-stream" route req) =
    Returns (Some (error_response (mapped_status (exc_type error))
                     (status_text (exc_type error)) (exc_str error))).
Proof.
  intros Hraise Hexc. rewrite endpoint_json, endpoint_stream.
  rewrite (format_stream_caught _ _ _ Hraise Hexc).
  by rewrite (format_json_caught _ _ _ Hraise Hexc).
Qed.

Lemma stream_error_as_json_witness :
  endpoint "application/octet-stream"
    (fun _ => Raises (mk_exc RecordNotFound "No user with id=9")) sample_request =
  endpoint "application/json"
    (fun _ => Raises (mk_exc RecordNotFound "No user with id=9")) sample_request /\
  result (endpoint "application/octet-stream"
            (fun _ => Raises (mk_exc RecordNotFound "No user with id=9"))
            sample_request) =
    Returns (Some (error_response 404 "Error" "No user with id=9")).
Proof.
  apply (stream_error_as_json
           (fun _ => Raises (mk_exc RecordNotFound "No user with id=9"))
           sample_request (mk_exc RecordNotFound "No user with id=9") eq_refl).
  vm_compute. reflexivity.
Defined.

(** C10.  Both modes look the raised exception's own class up in the table
    and ignore its ancestry: an exception whose class is a proper subclass of
    a registered kind gets 500 and "Critical", not the kind's code, and so
    does an instance of [WebException] itself. *)
Theorem exact_type_dispatch (route : Route) (req : Request) (error : exc) :
  route req = Raises error ->
  (forall kind, kind ∈ taxonomy.*1 ->
     issubclass (exc_type error) kind = true -> exc_type error ≠ kind ->
     result (endpoint "application/json" route req) =
       Returns (Some (error_response 500 "Critical" (exc_str error))) /\
     result (endpoint "application/octet-stream" route req) =
       Returns (Some (error_response 500 "Critical" (exc_str error)))) /\
  (exc_type error = WebException ->
     result (endpoint "application/json" route req) =
       Returns (Some (error_response 500 "Critical" (exc_str error))) /\
     result (endpoint "application/octet-stream" route req) =
       Returns (Some (error_response 500 "Critical" (exc_str error)))).
Proof.
  intros Hraise. rewrite endpoint_json, endpoint_stream.
  assert (Hboth : isinstance error Exception = true ->
                  exc_type error ∉ taxonomy.*1 ->
     result (format_json route req) =
       Returns (Some (error_response 500 "Critical" (exc_str error))) /\
     result (format_stream route req) =
       Returns (Some (error_response 500 "Critical" (exc_str error)))).
  { intros Hexc Hout.
    rewrite (format_json_unregistered _ _ _ Hraise Hexc Hout).
    by rewrite (format_stream_unregistered _ _ _ Hraise Hexc Hout). }
  split.
  - intros kind Hkind Hsub Hne. apply Hboth.
    + apply (issubclass_trans _ kind); [done |].
      by apply taxonomy_issubclass_Exception.
    + apply issubclass_elem, elem_of_cons in Hsub as [-> | Hsub]; [done |].
      by apply (proper_subclass_unregistered _ kind).
  - intros Hweb. apply Hboth.
    + unfold isinstance. by rewrite Hweb.
    + rewrite Hweb. decide_closed.
Qed.

Lemma exact_type_dispatch_witness :
  (result (endpoint "application/json"
             (fun _ => Raises (mk_exc (Derived "UserNotFound" NotFound) "no such user"))
             sample_request) =
     Returns (Some (error_response 500 "Critical" "no such user")) /\
   result (endpoint "application/octet-stream"
             (fun _ => Raises (mk_exc (Derived "UserNotFound" NotFound) "no such user"))
             sample_request) =
     Returns (Some (error_response 500 "Critical" "no such user"))) /\
  (result (endpoint "application/json"
             (fun _ => Raises (mk_exc WebException "generic")) sample_request) =
     Returns (Some (error_response 500 "Critical" "generic")) /\
   result (endpoint "application/octet-stream"
             (fun _ => Raises (mk_exc WebException "generic")) sample_request) =
     Returns (Some (error_response 500 "Critical" "generic"))).
Proof.
  split.
  - apply (exact_type_dispatch
             (fun _ => Raises (mk_exc (Derived "UserNotFound" NotFound) "no such user"))
             sample_request (mk_exc (Derived "UserNotFound" NotFound) "no such user")
             eq_refl) with (kind := NotFound).
    + decide_closed.
    + vm_compute. reflexivity.
    + discriminate.
  - apply (exact_type_dispatch (fun _ => Raises (mk_exc WebException "generic"))
             sample_request (mk_exc WebException "generic") eq_refl).
    reflexivity.
Defined.

(** *** The success path of the streaming mode *)

(** After a [try] block that ran to its end [format_stream] has no [return]:
    the response it built is dropped and the call yields [None]. *)
Lemma format_stream_success route req g :
  route req = Returns (Stream g) ->
  format_stream route req = mk_Run [log_line req 200] (Returns None).
Proof.
  intros Hret. unfold format_stream, stream_try. by rewrite Hret.
Qed.

(** C2.  Under the streaming mode a handler that returns headers and a
    generator is owed a 200 application/octet-stream response with these
    chunks and headers.  [format_stream] builds it and does not return it:
    for the handler returning [download] the call logs status 200 and
    returns [None]. *)
Theorem stream_success_returns_none :
  endpoint "application/octet-stream" (fun _ => Returns (Stream download))
    sample_request =
  mk_Run ["GET /user/1 200"] (Returns None).
Proof.
  rewrite endpoint_stream.
  by rewrite (format_stream_success _ _ download eq_refl).
Qed.

(** What the [try] block had built by then: the response the claim
    describes. *)
Example stream_try_download :
  stream_try (fun _ => Returns (Stream download)) sample_request 200 =
    Returns {| body := Chunks [[Byte.x52; Byte.x45]; [Byte.x46]]; status := 200;
               mimetype := "application/octet-stream";
               headers := [("Content-Disposition", "attachment; filename=data.bin")] |}.
Proof. reflexivity. Qed.

(** *** Exceptions outside [Exception] *)

(** C8, as stated, fails: a handler interrupted by [KeyboardInterrupt] under
    the streaming mode; [except Exception] does not apply, the [finally]
    clause logs, and the exception reaches the caller. *)
Lemma stream_propagates_keyboard_interrupt :
  interrupted sample_request = Raises (mk_exc KeyboardInterrupt EmptyString) /\
  result (endpoint "application/octet-stream" interrupted sample_request) =
    Raises (mk_exc KeyboardInterrupt EmptyString) /\
  ~ exists r, result (endpoint "application/octet-stream" interrupted sample_request) =
                Returns (Some r).
Proof.
  split; [reflexivity |]. split; [reflexivity |].
  intros [r Hr]. discriminate Hr.
Qed.

(** C8, amended.  Whatever exception the handler raises, the JSON-mode
    function returns a response and propagates nothing.  The streaming-mode
    function does so for every instance of [Exception], the class its
    [except] clause names, and both modes then answer with the same
    response, whose status is the one mapped for the exception's class. *)
Theorem handler_exception_contained (route : Route) (req : Request) (error : exc) :
  route req = Raises error ->
  (exists r, result (endpoint "application/json" route req) = Returns (Some r)) /\
  (isinstance error Exception = true ->
     exists r,
       result (endpoint "application/json" route req) = Returns (Some r) /\
       result (endpoint "application/octet-stream" route req) = Returns (Some r) /\
       status r = mapped_status (exc_type error)).
Proof.
  intros Hraise. rewrite endpoint_json, endpoint_stream. split.
  - by apply (format_json_returns_response _ _ error).
  - intros Hexc. eexists.
    rewrite (format_json_caught _ _ _ Hraise Hexc).
    rewrite (format_stream_caught _ _ _ Hraise Hexc). done.
Qed.

Lemma handler_exception_contained_witness :
  (exists r, result (endpoint "application/json" interrupted sample_request) =
               Returns (Some r)) /\
  (exists r, result (endpoint "application/json"
                       (fun _ => Raises (mk_exc TokenExpired "Token expired"))
                       sample_request) = Returns (Some r) /\
             result (endpoint "application/octet-stream"
                       (fun _ => Raises (mk_exc TokenExpired "Token expired"))
                       sample_request) = Returns (Some r) /\
             status r = 401).
Proof.
  split.
  - apply (handler_exception_contained interrupted sample_request
             (mk_exc KeyboardInterrupt EmptyString) eq_refl).
  - apply (handler_exception_contained
             (fun _ => Raises (mk_exc TokenExpired "Token expired"))
             sample_request (mk_exc TokenExpired "Token expired") eq_refl).
    vm_compute. reflexivity.
Defined.

(** *** The protected routes *)

Example bearer_expected_length : String.length bearer_expected = 50%nat.
Proof. reflexivity. Qed.

Example bearer_expected_quotes :
  String.get 9 bearer_expected = Some "034"%char /\
  String.get 39 bearer_expected = Some "034"%char.
Proof. split; reflexivity. Qed.

(** C3.  A request without an [Authorization] header to a route under
    [authenticated] is answered with status 403 and exactly the JSON object
    of [Status] "Error" and [Message] the [TokenNotFound] text. *)
Theorem missing_authorization_header
    (codec : TokenCodec) (store : CredentialStore)
    (route : Client -> Route) (req : Request) :
  authorization req = None ->
  result (endpoint "application/json" (authenticated codec store route) req) =
    Returns (Some (error_response 403 "Error" bearer_expected)).
Proof.
  intros Hnone. rewrite endpoint_json.
  rewrite (format_json_registered _ _ (mk_exc TokenNotFound bearer_expected) 403).
  - reflexivity.
  - unfold authenticated. by rewrite Hnone.
  - decide_closed.
Qed.

Lemma missing_authorization_header_witness :
  result (endpoint "application/json"
            (authenticated demo_codec demo_store demo_route)
            (with_authorization None)) =
    Returns (Some (error_response 403 "Error" bearer_expected)).
Proof.
  apply (missing_authorization_header demo_codec demo_store demo_route
           (with_authorization None)).
  reflexivity.
Defined.

(** C4.  A client whose access is revoked gets status 401, [Status] "Error"
    and [Message] "Access has been revoked" on every authenticated request,
    by bearer token as by key and secret, the token and the credential being
    valid otherwise. *)
Theorem revoked_client_refused
    (codec : TokenCodec) (store : CredentialStore)
    (route : Client -> Route) (client : Client) :
  revoked client = true ->
  (forall req token t,
     authorization req = Some (Bearer token) ->
     decode codec token = Some t -> now codec <= exp t ->
     find_by_id store (sub t) = Returns client ->
     result (endpoint "application/json" (authenticated codec store route) req) =
       Returns (Some (error_response 401 "Error" "Access has been revoked"))) /\
  (forall req key secret,
     authorization req = Some (Basic key secret) ->
     find_by_key store key = Some client ->
     secret_verifies store client secret = true ->
     result (endpoint "application/json" (authenticate store route) req) =
       Returns (Some (error_response 401 "Error" "Access has been revoked"))).
Proof.
  intros Hrevoked. split.
  - intros req token t Hauth Hdecode Hexp Hfind. rewrite endpoint_json.
    rewrite (format_json_registered _ _
               (mk_exc PermissionDenied "Access has been revoked") 401).
    + reflexivity.
    + unfold authenticated, decrypt. rewrite Hauth, Hdecode.
      rewrite (proj2 (Z.ltb_ge _ _) Hexp). by rewrite Hfind, Hrevoked.
    + decide_closed.
  - intros req key secret Hauth Hfind Hsecret. rewrite endpoint_json.
    rewrite (format_json_registered _ _
               (mk_exc PermissionDenied "Access has been revoked") 401).
    + reflexivity.
    + unfold authenticate. by rewrite Hauth, Hfind, Hsecret, Hrevoked.
    + decide_closed.
Qed.

Lemma revoked_client_refused_witness :
  result (endpoint "application/json"
            (authenticated demo_codec demo_store demo_route)
            (with_authorization (Some (Bearer "good-token")))) =
    Returns (Some (error_response 401 "Error" "Access has been revoked")) /\
  result (endpoint "application/json" (authenticate demo_store demo_route)
            (with_authorization (Some (Basic "key-1" "secret-1")))) =
    Returns (Some (error_response 401 "Error" "Access has been revoked")).
Proof.
  destruct (revoked_client_refused demo_codec demo_store demo_route demo_client
              eq_refl) as [Htoken Hbasic].
  split.
  - apply (Htoken (with_authorization (Some (Bearer "good-token"))) "good-token"
             (mk_Token 1 0 100)); [reflexivity | reflexivity | | reflexivity].
    simpl. lia.
  - apply (Hbasic (with_authorization (Some (Basic "key-1" "secret-1")))
             "key-1" "secret-1"); reflexivity.
Defined.

(** C5.  A bearer token whose signature check fails, or that is malformed,
    is answered with status 403, [Status] "Error" and a [Message] holding
    the token's first three and last three characters joined by [...]; the
    answer is the same for any two such tokens that agree on those
    characters. *)
Theorem invalid_token_preview
    (codec : TokenCodec) (store : CredentialStore)
    (route : Client -> Route) (req : Request) (token : string) :
  authorization req = Some (Bearer token) -> decode codec token = None ->
  result (endpoint "application/json" (authenticated codec store route) req) =
    Returns (Some (error_response 403 "Error"
                     ("Token invalid: '"
                        ++ (String.substring 0 3 token ++ "..."
                              ++ String.substring (String.length token - 3) 3 token)
                        ++ "'"))) /\
  (forall req' token',
     authorization req' = Some (Bearer token') -> decode codec token' = None ->
     String.substring 0 3 token' = String.substring 0 3 token ->
     String.substring (String.length token' - 3) 3 token' =
       String.substring (String.length token - 3) 3 token ->
     result (endpoint "application/json" (authenticated codec store route) req') =
       result (endpoint "application/json" (authenticated codec store route) req)).
Proof.
  assert (Hinvalid : forall r tok,
    authorization r = Some (Bearer tok) -> decode codec tok = None ->
    result (format_json (authenticated codec store route) r) =
      Returns (Some (error_response 403 "Error"
                       ("Token invalid: '" ++ token_preview tok ++ "'")))).
  { intros r tok Hauth Hdecode.
    rewrite (format_json_registered _ _
               (mk_exc TokenInvalid ("Token invalid: '" ++ token_preview tok ++ "'"))
               403).
    - reflexivity.
    - unfold authenticated, decrypt. by rewrite Hauth, Hdecode.
    - decide_closed. }
  intros Hauth Hdecode. rewrite !endpoint_json. split.
  - by rewrite (Hinvalid _ _ Hauth Hdecode).
  - intros req' token' Hauth' Hdecode' Hfirst Hlast.
    rewrite (Hinvalid req token Hauth Hdecode).
    rewrite (Hinvalid req' token' Hauth' Hdecode').
    unfold token_preview. by rewrite Hfirst, Hlast.
Qed.

Lemma invalid_token_preview_witness :
  result (endpoint "application/json"
            (authenticated demo_codec demo_store demo_route)
            (with_authorization (Some (Bearer "bad-token")))) =
    Returns (Some (error_response 403 "Error" "Token invalid: 'bad...ken'")).
Proof.
  apply (invalid_token_preview demo_codec demo_store demo_route
           (with_authorization (Some (Bearer "bad-token"))) "bad-token");
    reflexivity.
Defined.

(** *** More on the tables and the two wrappers *)

Lemma RESPONSE_MAP_lookup_taxonomy c code :
  RESPONSE_MAP !! c = Some code <-> (c, code) ∈ taxonomy.
Proof.
  rewrite RESPONSE_MAP_taxonomy. symmetry.
  apply elem_of_list_to_map, taxonomy_NoDup.
Qed.

(** X1.  Every code of [RESPONSE_MAP] is a code of the [STATUS] table, lies
    between 400 and 501 and is not 500: no registered class is answered as
    a success or as an internal server error, and every registered class
    is a subclass of [Exception]. *)
Theorem RESPONSE_MAP_codes (c : PyClass) (code : Z) :
  RESPONSE_MAP !! c = Some code ->
  (exists name, STATUS !! name = Some code) /\
  400 <= code <= 501 /\ code <> 500 /\ issubclass c Exception = true.
Proof.
  intros Hc. apply RESPONSE_MAP_lookup_taxonomy in Hc.
  unfold taxonomy in Hc.
  repeat (apply elem_of_cons in Hc as [Hc | Hc];
          [ injection Hc as -> ->; split; [| split; [lia | split; [lia | reflexivity]]] |]);
    [ exists "Forbidden" | exists "Forbidden" | exists "Forbidden"
    | exists "Forbidden" | exists "Unauthorized" | exists "Unauthorized"
    | exists "Not Found" | exists "Not Found" | exists "Bad Request"
    | exists "Bad Request" | exists "Bad Request" | exists "Bad Request"
    | exists "Bad Request" | exists "Not Implemented"
    | exists "Payload Too Large" | by apply elem_of_nil in Hc ];
    vm_compute; reflexivity.
Qed.

Lemma RESPONSE_MAP_codes_witness :
  (exists name, STATUS !! name = Some 413) /\
  400 <= 413 <= 501 /\ 413 <> 500 /\ issubclass PayloadTooLarge Exception = true.
Proof.
  apply (RESPONSE_MAP_codes PayloadTooLarge 413). vm_compute. reflexivity.
Defined.

Lemma in_RESPONSE_MAP_lookup c :
  in_RESPONSE_MAP c = true ->
  exists code, RESPONSE_MAP !! c = Some code /\ RESPONSE_MAP !!! c = code.
Proof.
  intros Hin. apply in_RESPONSE_MAP_taxonomy in Hin.
  apply list_elem_of_fmap in Hin as [[k code] [Hk Hin]]. simpl in Hk. subst k.
  exists code. split.
  - by apply RESPONSE_MAP_lookup_taxonomy.
  - by apply RESPONSE_MAP_lookup_total.
Qed.

(** X2.  In every response of the JSON mode the HTTP status and the
    [Status] text agree: the body is a JSON object that starts with
    [Status], which is "Success" exactly with status 200, "Critical" exactly
    with status 500, and "Error" with a code between 400 and 501 otherwise;
    the response is application/json. *)
Theorem format_json_status_agrees (route : Route) (req : Request) (r : Response) :
  result (format_json route req) = Returns (Some r) ->
  mimetype r = "application/json" /\
  exists text items,
    body r = JsonText (JDict (("Status", JStr text) :: items)) /\
    (text = "Success" /\ status r = 200 \/
     text = "Error" /\ 400 <= status r <= 501 /\ status r <> 500 \/
     text = "Critical" /\ status r = 500).
Proof.
  unfold format_json.
  destruct (route req) as [[d | g] | error]; simpl.
  - intros [= <-]. split; [done |]. eexists _, _. split; [done |]. by left.
  - discriminate.
  - destruct (isinstance error Exception).
    + destruct (in_RESPONSE_MAP (exc_type error)) eqn:Hin; simpl.
      * destruct (in_RESPONSE_MAP_lookup _ Hin) as (code & Hcode & ->).
        intros [= <-]. split; [done |]. eexists _, _. split; [done |].
        right; left. simpl.
        pose proof (RESPONSE_MAP_codes _ _ Hcode) as (_ & ? & ? & _). done.
      * intros [= <-]. split; [done |]. eexists _, _. split; [done |].
        by right; right.
    + simpl. intros [= <-]. split; [done |]. eexists _, _. split; [done |].
      by left.
Qed.

Lemma format_json_status_agrees_witness :
  mimetype (error_response 404 "Error" "No user with id=9") = "application/json" /\
  exists text items,
    body (error_response 404 "Error" "No user with id=9") =
      JsonText (JDict (("Status", JStr text) :: items)) /\
    (text = "Success" /\ status (error_response 404 "Error" "No user with id=9") = 200 \/
     text = "Error" /\
       400 <= status (error_response 404 "Error" "No user with id=9") <= 501 /\
       status (error_response 404 "Error" "No user with id=9") <> 500 \/
     text = "Critical" /\ status (error_response 404 "Error" "No user with id=9") = 500).
Proof.
  apply (format_json_status_agrees
           (fun _ => Raises (mk_exc RecordNotFound "No user with id=9"))
           sample_request).
  vm_compute. reflexivity.
Defined.

(** X3.  The JSON mode logs exactly one line per call, the request's method
    and path with a status; the status logged is the status of the response
    returned, and 200 when [json.dumps] raises instead. *)
Theorem format_json_logs_status (route : Route) (req : Request) :
  exists st,
    logged (format_json route req) = [log_line req st] /\
    (forall r, result (format_json route req) = Returns (Some r) -> status r = st) /\
    (forall error, result (format_json route req) = Raises error -> st = 200).
Proof.
  unfold format_json.
  destruct (route req) as [[d | g] | error]; simpl.
  - exists 200. split; [done |]. split; [by intros r [= <-] | done].
  - exists 200. split; [done |]. split; [discriminate | done].
  - destruct (isinstance error Exception);
      [destruct (in_RESPONSE_MAP (exc_type error)) |]; simpl;
      eexists; (split; [done |]); (split; [by intros r [= <-] | discriminate]).
Qed.

(** X4.  The streaming mode logs exactly one line per call as well; the
    status logged is the status of the response returned, and it is 200
    when the call returns [None] or lets an exception through. *)
Theorem format_stream_logs_status (route : Route) (req : Request) :
  exists st,
    logged (format_stream route req) = [log_line req st] /\
    (forall r, result (format_stream route req) = Returns (Some r) -> status r = st) /\
    (result (format_stream route req) = Returns None -> st = 200) /\
    (forall error, result (format_stream route req) = Raises error -> st = 200).
Proof.
  unfold format_stream.
  destruct (stream_try route req (STATUS !!! "OK")) as [response | error].
  - exists 200. simpl. split; [done |]. split; [discriminate |]. done.
  - destruct (isinstance error Exception).
    + destruct (in_RESPONSE_MAP (exc_type error)); simpl;
        eexists; (split; [done |]);
        (split; [by intros r [= <-] |]); (split; discriminate).
    + exists 200. simpl. split; [done |]. split; [discriminate |]. done.
Qed.

(** X5.  An exception outside [Exception] is not caught by the JSON mode's
    [except] clause, and the [return] in its [finally] clause discards it:
    the call answers 200 with the body [{"Status": "Success"}], without a
    [Response] field, and logs status 200. *)
Theorem format_json_discards_base_exception
    (route : Route) (req : Request) (error : exc) :
  route req = Raises error -> isinstance error Exception = false ->
  format_json route req =
    mk_Run [log_line req 200]
      (Returns (Some {| body := JsonText (JDict [("Status", JStr "Success")]);
                        status := 200; mimetype := "application/json";
                        headers := [] |})).
Proof.
  intros Hraise Hexc. unfold format_json. by rewrite Hraise, Hexc.
Qed.

Lemma format_json_discards_base_exception_witness :
  format_json interrupted sample_request =
    mk_Run ["GET /user/1 200"]
      (Returns (Some {| body := JsonText (JDict [("Status", JStr "Success")]);
                        status := 200; mimetype := "application/json";
                        headers := [] |})).
Proof.
  apply (format_json_discards_base_exception interrupted sample_request
           (mk_exc KeyboardInterrupt EmptyString)); reflexivity.
Defined.

(** X6.  A route under the JSON mode that returns a [ByteGenerator] gets no
    response: [json.dumps] raises [TypeError] inside the [finally] clause,
    after status 200 was logged, and the exception reaches the caller. *)
Theorem format_json_generator_raises
    (route : Route) (req : Request) (g : ByteGenerator) :
  route req = Returns (Stream g) ->
  format_json route req =
    mk_Run [log_line req 200]
      (Raises (mk_exc TypeError "Object of type generator is not JSON serializable")).
Proof.
  intros Hret. unfold format_json. by rewrite Hret.
Qed.

Lemma format_json_generator_raises_witness :
  format_json (fun _ => Returns (Stream download)) sample_request =
    mk_Run ["GET /user/1 200"]
      (Raises (mk_exc TypeError "Object of type generator is not JSON serializable")).
Proof.
  apply (format_json_generator_raises (fun _ => Returns (Stream download))
           sample_request download).
  reflexivity.
Defined.

(** X7.  The streaming mode never returns the stream: whatever the route
    does, a response it returns is an application/json error envelope, with
    [Status] "Error" or "Critical", a status between 400 and 501 and no
    header set. *)
Theorem format_stream_only_error_responses
    (route : Route) (req : Request) (r : Response) :
  result (format_stream route req) = Returns (Some r) ->
  exists code text message,
    r = error_response code text message /\ 400 <= code <= 501 /\
    (text = "Error" /\ code <> 500 \/ text = "Critical" /\ code = 500).
Proof.
  unfold format_stream.
  destruct (stream_try route req (STATUS !!! "OK")) as [response | error];
    [discriminate |].
  destruct (isinstance error Exception); [| discriminate].
  destruct (in_RESPONSE_MAP (exc_type error)) eqn:Hin; simpl.
  - destruct (in_RESPONSE_MAP_lookup _ Hin) as (code & Hcode & ->).
    intros [= <-]. exists code, "Error", (exc_str error).
    pose proof (RESPONSE_MAP_codes _ _ Hcode) as (_ & ? & ? & _).
    split; [done |]. split; [done |]. by left.
  - intros [= <-]. exists 500, "Critical", (exc_str error).
    split; [done |]. split; [done |]. by right.
Qed.

Lemma format_stream_only_error_responses_witness :
  exists code text message,
    error_response 404 "Error" "No user with id=9" =
      error_response code text message /\ 400 <= code <= 501 /\
    (text = "Error" /\ code <> 500 \/ text = "Critical" /\ code = 500).
Proof.
  apply (format_stream_only_error_responses
           (fun _ => Raises (mk_exc RecordNotFound "No user with id=9"))
           sample_request).
  vm_compute. reflexivity.
Defined.

(** X8.  A route under the streaming mode that returns a [dict] is answered
    with 500 and [Status] "Critical": unpacking the dict into headers and
    stream fails, or the first key has no [items]. *)
Theorem format_stream_dict_critical
    (route : Route) (req : Request) (d : pydict json) :
  route req = Returns (Payload d) ->
  exists message,
    format_stream route req =
      mk_Run [log_line req 500]
        (Returns (Some (error_response 500 "Critical" message))).
Proof.
  intros Hret. unfold format_stream, stream_try. rewrite Hret.
  destruct d as [| x [| y [| z d]]]; eexists; reflexivity.
Qed.

Lemma format_stream_dict_critical_witness :
  exists message,
    format_stream (fun _ => Returns (Payload [("user", JInt 1)])) sample_request =
      mk_Run ["GET /user/1 500"]
        (Returns (Some (error_response 500 "Critical" message))).
Proof.
  apply (format_stream_dict_critical
           (fun _ => Returns (Payload [("user", JInt 1)])) sample_request
           [("user", JInt 1)]).
  reflexivity.
Defined.

(** *** The user endpoints *)

Lemma format_json_payload route req d :
  route req = Returns (Payload d) ->
  format_json route req =
    mk_Run [log_line req 200] (Returns (Some (success_response d))).
Proof. intros Hret. unfold format_json. by rewrite Hret. Qed.

(** Unfolds a handler down to the answers of its collaborators. *)
Ltac run_handler :=
  unfold served, answer, asked, try_except, constraint_violation, call, raise,
    mbind, Ask_bind, mret, Ask_ret; simpl.

(** X9.  [add_user] refuses a bad payload before it touches the database:
    an empty body, a body that [json.loads] rejects with [JSONDecodeError]
    and a body that is not a JSON object make no call on the data model,
    and a [TypeError] of the constructor ends the run after that one call;
    the answers are 400 with the texts "Missing JSON data", "Invalid JSON
    data" and "Invalid parameters in JSON data". *)
Theorem add_user_rejects_payload (dm : DataModel) (admin : Client) (req : Request) :
  (data req = [] ->
   asked (add_user dm admin req) = [] /\
   result (endpoint "application/json" (served (add_user dm admin)) req) =
     Returns (Some (error_response 400 "Error" "Missing JSON data"))) /\
  (forall error,
     data req <> [] -> json_loads dm (data req) = Raises error ->
     isinstance error JSONDecodeError = true ->
     asked (add_user dm admin req) = [] /\
     result (endpoint "application/json" (served (add_user dm admin)) req) =
       Returns (Some (error_response 400 "Error" "Invalid JSON data"))) /\
  (forall value,
     data req <> [] -> json_loads dm (data req) = Returns value ->
     (forall d, value <> JDict d) ->
     asked (add_user dm admin req) = [] /\
     result (endpoint "application/json" (served (add_user dm admin)) req) =
       Returns (Some (error_response 400 "Error" "Invalid parameters in JSON data"))) /\
  (forall d error,
     data req <> [] -> json_loads dm (data req) = Returns (JDict d) ->
     User_new dm d = Raises error -> isinstance error TypeError = true ->
     asked (add_user dm admin req) = [Call_User d] /\
     result (endpoint "application/json" (served (add_user dm admin)) req) =
       Returns (Some (error_response 400 "Error" "Invalid parameters in JSON data"))).
Proof.
  assert (Hanswer : forall calls error code message,
            add_user dm admin req = (calls, Raises (mk_exc error message)) ->
            (error, code) ∈ taxonomy ->
            asked (add_user dm admin req) = calls /\
            result (format_json (served (add_user dm admin)) req) =
              Returns (Some (error_response code "Error" message))).
  { intros calls error code message Hrun Hcode. split; [by rewrite Hrun |].
    rewrite (format_json_registered _ _ (mk_exc error message) code); [done | | done].
    unfold served. by rewrite Hrun. }
  rewrite endpoint_json. split; [| split; [| split]].
  - intros Hdata. apply (Hanswer _ PayloadNotFound); [| decide_closed].
    unfold add_user. by rewrite Hdata.
  - intros error Hdata Hloads Hclass.
    apply (Hanswer _ PayloadMalformed); [| decide_closed].
    unfold add_user. destruct (data req); [done |].
    run_handler. by rewrite Hloads, Hclass.
  - intros value Hdata Hloads Hvalue.
    apply (Hanswer _ PayloadInvalid); [| decide_closed].
    unfold add_user. destruct (data req); [done |].
    run_handler. rewrite Hloads.
    destruct value as [| | | | | d]; try done. by destruct (Hvalue d).
  - intros d error Hdata Hloads Hnew Hclass.
    apply (Hanswer _ PayloadInvalid); [| decide_closed].
    unfold add_user. destruct (data req); [done |].
    run_handler. by rewrite Hloads, Hnew, Hclass.
Qed.

Lemma add_user_rejects_payload_witness :
  (asked (add_user demo_model demo_client (with_data [])) = [] /\
   result (endpoint "application/json" (served (add_user demo_model demo_client))
             (with_data [])) =
     Returns (Some (error_response 400 "Error" "Missing JSON data"))) /\
  (asked (add_user demo_model demo_client (with_data payload_garbage)) = [] /\
   result (endpoint "application/json" (served (add_user demo_model demo_client))
             (with_data payload_garbage)) =
     Returns (Some (error_response 400 "Error" "Invalid JSON data"))) /\
  (asked (add_user demo_model demo_client (with_data payload_list)) = [] /\
   result (endpoint "application/json" (served (add_user demo_model demo_client))
             (with_data payload_list)) =
     Returns (Some (error_response 400 "Error" "Invalid parameters in JSON data"))).
Proof.
  split; [| split].
  - by apply (add_user_rejects_payload demo_model demo_client (with_data [])).
  - destruct (add_user_rejects_payload demo_model demo_client
                (with_data payload_garbage)) as (_ & Hmalformed & _).
    by eapply Hmalformed.
  - destruct (add_user_rejects_payload demo_model demo_client
                (with_data payload_list)) as (_ & _ & Hinvalid & _).
    by eapply Hinvalid.
Defined.

(** X10.  Whatever the collaborators answer, [add_user] writes to the
    database at most once and only a validated profile: a write is the
    second and last call of the run, after the constructor accepted the
    JSON object of the body, and it is [User.add] of the profile without
    its [id] when the [id] is absent or falsy, [User.update] of that [id]
    with the rest of the profile otherwise. *)
Theorem add_user_writes_validated
    (dm : DataModel) (admin : Client) (req : Request) (c : Call) :
  c ∈ asked (add_user dm admin req) -> is_write c = true ->
  data req <> [] /\
  exists d,
    json_loads dm (data req) = Returns (JDict d) /\
    User_new dm d = Returns tt /\
    asked (add_user dm admin req) = [Call_User d; c] /\
    (truthy (default JNull (dict_get d "id")) = false /\
       c = Call_add (dict_remove d "id") \/
     truthy (default JNull (dict_get d "id")) = true /\
       c = Call_update (default JNull (dict_get d "id")) (dict_remove d "id")).
Proof.
  unfold add_user. destruct (data req) as [| b payload]; run_handler.
  { by intros ?%elem_of_nil. }
  destruct (json_loads dm (b :: payload)) as [value | error]; simpl.
  2: { destruct (isinstance error JSONDecodeError); by intros ?%elem_of_nil. }
  destruct value as [| | | | | d]; simpl; try by intros ?%elem_of_nil.
  destruct (User_new dm d) as [[] | error] eqn:Hnew; simpl.
  2: { destruct (isinstance error TypeError); simpl;
       intros Hc%list_elem_of_singleton Hw; by subst c. }
  assert (Hfound : forall w : Call,
            c ∈ [Call_User d; w] -> is_write c = true -> c = w).
  { intros w Hc Hw. apply elem_of_cons in Hc as [-> | Hc]; [done |].
    by apply list_elem_of_singleton in Hc. }
  assert (Hdone : forall w : Call,
            (truthy (default JNull (dict_get d "id")) = false /\
               w = Call_add (dict_remove d "id") \/
             truthy (default JNull (dict_get d "id")) = true /\
               w = Call_update (default JNull (dict_get d "id"))
                     (dict_remove d "id")) ->
            c ∈ [Call_User d; w] -> is_write c = true ->
            b :: payload <> [] /\
            exists d0,
              Returns (JDict d) = Returns (JDict d0) /\
              User_new dm d0 = Returns tt /\
              [Call_User d; w] = [Call_User d0; c] /\
              (truthy (default JNull (dict_get d0 "id")) = false /\
                 c = Call_add (dict_remove d0 "id") \/
               truthy (default JNull (dict_get d0 "id")) = true /\
                 c = Call_update (default JNull (dict_get d0 "id"))
                       (dict_remove d0 "id"))).
  { intros w Hw Hc Hwrite. apply Hfound in Hc as ->; [| done].
    split; [done |]. by exists d. }
  destruct (truthy (default JNull (dict_get d "id"))) eqn:Hid; simpl.
  - destruct (User_update dm _ _) as [[] | error]; simpl;
      [| destruct (isinstance error (IntegrityError dm));
         [destruct (args0 dm error) |]]; simpl;
      apply Hdone; by right.
  - destruct (User_add dm _) as [new_id | error]; simpl;
      [| destruct (isinstance error (IntegrityError dm));
         [destruct (args0 dm error) |]]; simpl;
      apply Hdone; by left.
Qed.

Lemma add_user_writes_validated_witness :
  data (with_data payload_zero) <> [] /\
  exists d,
    json_loads demo_model (data (with_data payload_zero)) = Returns (JDict d) /\
    User_new demo_model d = Returns tt /\
    asked (add_user demo_model demo_client (with_data payload_zero)) =
      [Call_User d; Call_add [("alias", JStr "croft")]] /\
    (truthy (default JNull (dict_get d "id")) = false /\
       Call_add [("alias", JStr "croft")] = Call_add (dict_remove d "id") \/
     truthy (default JNull (dict_get d "id")) = true /\
       Call_add [("alias", JStr "croft")] =
         Call_update (default JNull (dict_get d "id")) (dict_remove d "id")).
Proof.
  apply (add_user_writes_validated demo_model demo_client (with_data payload_zero)
           (Call_add [("alias", JStr "croft")])).
  - vm_compute. apply elem_of_cons. right. by apply list_elem_of_singleton.
  - reflexivity.
Defined.

Lemma served_payload handler req calls d :
  handler req = (calls, Returns (Payload d)) ->
  result (endpoint "application/json" (served handler) req) =
    Returns (Some (success_response d)).
Proof.
  intros Hrun. rewrite endpoint_json.
  rewrite (format_json_payload _ _ d); [done |].
  unfold served. by rewrite Hrun.
Qed.

Lemma served_registered handler req calls error code :
  handler req = (calls, Raises error) -> (exc_type error, code) ∈ taxonomy ->
  result (endpoint "application/json" (served handler) req) =
    Returns (Some (error_response code "Error" (exc_str error))).
Proof.
  intros Hrun Hcode. rewrite endpoint_json.
  rewrite (format_json_registered _ _ error code); [done | | done].
  unfold served. by rewrite Hrun.
Qed.

(** X11.  A validated profile whose [id] is absent or falsy (0, null, an
    empty string) is created: [add_user] calls [User.add] on the profile
    without its [id], and the answer is 200 with the id [User.add]
    returned. *)
Theorem add_user_creates
    (dm : DataModel) (admin : Client) (req : Request) (d : pydict json) (new_id : Z) :
  data req <> [] -> json_loads dm (data req) = Returns (JDict d) ->
  User_new dm d = Returns tt ->
  truthy (default JNull (dict_get d "id")) = false ->
  User_add dm (dict_remove d "id") = Returns new_id ->
  asked (add_user dm admin req) = [Call_User d; Call_add (dict_remove d "id")] /\
  result (endpoint "application/json" (served (add_user dm admin)) req) =
    Returns (Some (success_response [("user", JDict [("id", JInt new_id)])])).
Proof.
  intros Hdata Hloads Hnew Hid Hadd.
  assert (Hrun : add_user dm admin req =
                   ([Call_User d; Call_add (dict_remove d "id")],
                    Returns (Payload [("user", JDict [("id", JInt new_id)])]))).
  { unfold add_user. destruct (data req); [done |].
    run_handler. rewrite Hloads. simpl. rewrite Hnew. simpl.
    rewrite Hid. simpl. by rewrite Hadd. }
  split; [by rewrite Hrun | by apply (served_payload _ _ _ _ Hrun)].
Qed.

Lemma add_user_creates_witness :
  asked (add_user demo_model demo_client (with_data payload_zero)) =
    [Call_User [("id", JInt 0); ("alias", JStr "croft")];
     Call_add [("alias", JStr "croft")]] /\
  result (endpoint "application/json" (served (add_user demo_model demo_client))
            (with_data payload_zero)) =
    Returns (Some (success_response [("user", JDict [("id", JInt 7)])])).
Proof.
  by apply (add_user_creates demo_model demo_client (with_data payload_zero)
              [("id", JInt 0); ("alias", JStr "croft")] 7).
Defined.

(** X12.  A validated profile with a truthy [id] is an update: [add_user]
    calls [User.update] with that [id] and the rest of the profile, and the
    answer is 200 with the [id] of the payload echoed. *)
Theorem add_user_updates
    (dm : DataModel) (admin : Client) (req : Request) (d : pydict json) :
  data req <> [] -> json_loads dm (data req) = Returns (JDict d) ->
  User_new dm d = Returns tt ->
  truthy (default JNull (dict_get d "id")) = true ->
  User_update dm (default JNull (dict_get d "id")) (dict_remove d "id") = Returns tt ->
  asked (add_user dm admin req) =
    [Call_User d;
     Call_update (default JNull (dict_get d "id")) (dict_remove d "id")] /\
  result (endpoint "application/json" (served (add_user dm admin)) req) =
    Returns (Some (success_response
                     [("user", JDict [("id", default JNull (dict_get d "id"))])])).
Proof.
  intros Hdata Hloads Hnew Hid Hupdate.
  assert (Hrun : add_user dm admin req =
                   ([Call_User d;
                     Call_update (default JNull (dict_get d "id")) (dict_remove d "id")],
                    Returns (Payload
                      [("user", JDict [("id", default JNull (dict_get d "id"))])]))).
  { unfold add_user. destruct (data req); [done |].
    run_handler. rewrite Hloads. simpl. rewrite Hnew. simpl.
    rewrite Hid. simpl. by rewrite Hupdate. }
  split; [by rewrite Hrun | by apply (served_payload _ _ _ _ Hrun)].
Qed.

Lemma add_user_updates_witness :
  asked (add_user demo_model demo_client (with_data payload_rename)) =
    [Call_User [("id", JInt 1); ("alias", JStr "lara")];
     Call_update (JInt 1) [("alias", JStr "lara")]] /\
  result (endpoint "application/json" (served (add_user demo_model demo_client))
            (with_data payload_rename)) =
    Returns (Some (success_response [("user", JDict [("id", JInt 1)])])).
Proof.
  by apply (add_user_updates demo_model demo_client (with_data payload_rename)
              [("id", JInt 1); ("alias", JStr "lara")]).
Defined.

(** X13.  An [IntegrityError] of the database, on [User.add] as on
    [User.update], is answered with 400, [Status] "Error" and the text of
    the error's first argument. *)
Theorem add_user_constraint_violation
    (dm : DataModel) (admin : Client) (req : Request) (d : pydict json)
    (error : exc) (text : string) :
  data req <> [] -> json_loads dm (data req) = Returns (JDict d) ->
  User_new dm d = Returns tt ->
  isinstance error (IntegrityError dm) = true -> args0 dm error = Some text ->
  (if truthy (default JNull (dict_get d "id"))
   then User_update dm (default JNull (dict_get d "id")) (dict_remove d "id") =
          Raises error
   else User_add dm (dict_remove d "id") = Raises error) ->
  result (endpoint "application/json" (served (add_user dm admin)) req) =
    Returns (Some (error_response 400 "Error" text)).
Proof.
  intros Hdata Hloads Hnew Hclass Hargs Hwrite.
  assert (Hrun : exists calls,
            add_user dm admin req =
              (calls, Raises (mk_exc ConstraintViolation text))).
  { unfold add_user. destruct (data req); [done |].
    run_handler. rewrite Hloads. simpl. rewrite Hnew. simpl.
    destruct (truthy (default JNull (dict_get d "id"))); simpl;
      rewrite Hwrite, Hclass, Hargs; simpl; eauto. }
  destruct Hrun as [calls Hrun].
  rewrite (served_registered _ _ _ _ 400 Hrun); [done | decide_closed].
Qed.

Lemma add_user_constraint_violation_witness :
  result (endpoint "application/json" (served (add_user demo_model demo_client))
            (with_data payload_update)) =
    Returns (Some (error_response 400 "Error" "duplicate key value")).
Proof.
  by apply (add_user_constraint_violation demo_model demo_client
              (with_data payload_update) [("id", JInt 1); ("alias", JStr "taken")]
              (mk_exc demo_IntegrityError "duplicate key value")).
Defined.

(** X14.  [add_user] translates [JSONDecodeError] only: any other exception
    out of decoding and parsing the body ([UnicodeDecodeError] for bytes
    that are not UTF-8) leaves the handler as it is, before any call on the
    data model, and an unregistered one is answered with 500 and
    "Critical". *)
Theorem add_user_decode_error
    (dm : DataModel) (admin : Client) (req : Request) (error : exc) :
  data req <> [] -> json_loads dm (data req) = Raises error ->
  isinstance error JSONDecodeError = false ->
  add_user dm admin req = ([], Raises error) /\
  (isinstance error Exception = true -> exc_type error ∉ taxonomy.*1 ->
   result (endpoint "application/json" (served (add_user dm admin)) req) =
     Returns (Some (error_response 500 "Critical" (exc_str error)))).
Proof.
  intros Hdata Hloads Hclass.
  assert (Hrun : add_user dm admin req = ([], Raises error)).
  { unfold add_user. destruct (data req); [done |].
    run_handler. by rewrite Hloads, Hclass. }
  split; [done |]. intros Hexc Hout. rewrite endpoint_json.
  rewrite (format_json_unregistered _ _ error); [done | | done | done].
  unfold served. by rewrite Hrun.
Qed.

Lemma add_user_decode_error_witness :
  result (endpoint "application/json" (served (add_user demo_model demo_client))
            (with_data payload_latin1)) =
    Returns (Some (error_response 500 "Critical"
      "'utf-8' codec can't decode byte 0xe9 in position 0: unexpected end of data")).
Proof.
  destruct (add_user_decode_error demo_model demo_client (with_data payload_latin1)
              (mk_exc (Derived "UnicodeDecodeError" (Derived "UnicodeError" ValueError))
                 "'utf-8' codec can't decode byte 0xe9 in position 0: unexpected end of data"))
    as [_ Hcritical]; [done | reflexivity | reflexivity |].
  apply Hcritical; [reflexivity | decide_closed].
Defined.

(** No registered class is a [ValueError]. *)
Lemma taxonomy_not_ValueError c :
  c ∈ taxonomy.*1 -> issubclass c ValueError = false.
Proof.
  simpl. intros Hc.
  repeat (apply elem_of_cons in Hc as [-> | Hc]; [reflexivity |]).
  by apply elem_of_nil in Hc.
Qed.

(** X15.  [get_user] on a path segment that [int] accepts looks the user up
    by id: a user found is returned under [user]; a failure of that lookup
    with a registered error ([NotFound] of the data model, 404) is the
    answer, and the alias is not tried, so that a user whose alias reads as
    a number is not reachable by alias. *)
Theorem get_user_numeric
    (dm : DataModel) (admin : Client) (req : Request) (text : string) (n : Z) :
  py_int dm text = Some n ->
  (forall user,
     User_from_id dm n = Returns user ->
     asked (get_user dm admin text) = [Call_from_id n] /\
     result (endpoint "application/json" (served (fun _ => get_user dm admin text)) req) =
       Returns (Some (success_response [("user", JDict (User_to_json user))]))) /\
  (forall error code,
     User_from_id dm n = Raises error -> (exc_type error, code) ∈ taxonomy ->
     asked (get_user dm admin text) = [Call_from_id n] /\
     result (endpoint "application/json" (served (fun _ => get_user dm admin text)) req) =
       Returns (Some (error_response code "Error" (exc_str error)))).
Proof.
  intros Hint. split.
  - intros user Hfound.
    assert (Hrun : get_user dm admin text =
                     ([Call_from_id n],
                      Returns (Payload [("user", JDict (User_to_json user))]))).
    { unfold get_user. rewrite Hint. run_handler. by rewrite Hfound. }
    split; [by rewrite Hrun |].
    by apply (served_payload (fun _ => get_user dm admin text) req [Call_from_id n]).
  - intros error code Hfailed Hcode.
    assert (Hrun : get_user dm admin text = ([Call_from_id n], Raises error)).
    { unfold get_user. rewrite Hint. run_handler. rewrite Hfailed. simpl.
      unfold isinstance.
      by rewrite (taxonomy_not_ValueError _ (taxonomy_key _ _ Hcode)). }
    split; [by rewrite Hrun |].
    by apply (served_registered (fun _ => get_user dm admin text) req
                [Call_from_id n]).
Qed.

Lemma get_user_numeric_witness :
  (asked (get_user demo_model demo_client "1") = [Call_from_id 1] /\
   result (endpoint "application/json"
             (served (fun _ => get_user demo_model demo_client "1")) sample_request) =
     Returns (Some (success_response
                      [("user", JDict [("id", JInt 1); ("alias", JStr "lara")])]))) /\
  (asked (get_user demo_model demo_client "9") = [Call_from_id 9] /\
   result (endpoint "application/json"
             (served (fun _ => get_user demo_model demo_client "9")) sample_request) =
     Returns (Some (error_response 404 "Error" "No user with that id"))).
Proof.
  split.
  - destruct (get_user_numeric demo_model demo_client sample_request "1" 1 eq_refl)
      as [Hfound _].
    by apply (Hfound lara).
  - destruct (get_user_numeric demo_model demo_client sample_request "9" 9 eq_refl)
      as [_ Hfailed].
    apply (Hfailed (mk_exc RecordNotFound "No user with that id") 404);
      [reflexivity | decide_closed].
Defined.

(** X16.  [get_user] falls back to the lookup by alias in two cases: the
    path segment is not an integer for [int], or the lookup by id raised a
    [ValueError]; the answer is then the one of [User.from_alias]. *)
Theorem get_user_alias
    (dm : DataModel) (admin : Client) (text : string) :
  (py_int dm text = None ->
   get_user dm admin text =
     ([Call_from_alias text],
      match User_from_alias dm text with
      | Returns user => Returns (Payload [("user", JDict (User_to_json user))])
      | Raises error => Raises error
      end)) /\
  (forall n error,
     py_int dm text = Some n -> User_from_id dm n = Raises error ->
     isinstance error ValueError = true ->
     get_user dm admin text =
       ([Call_from_id n; Call_from_alias text],
        match User_from_alias dm text with
        | Returns user => Returns (Payload [("user", JDict (User_to_json user))])
        | Raises error => Raises error
        end)).
Proof.
  split.
  - intros Hint. unfold get_user. rewrite Hint. run_handler.
    by destruct (User_from_alias dm text).
  - intros n error Hint Hfailed Hclass. unfold get_user. rewrite Hint.
    run_handler. rewrite Hfailed, Hclass. simpl.
    by destruct (User_from_alias dm text).
Qed.

Lemma get_user_alias_witness :
  get_user demo_model demo_client "lara" =
    ([Call_from_alias "lara"],
     Returns (Payload [("user", JDict [("id", JInt 1); ("alias", JStr "lara")])])).
Proof.
  destruct (get_user_alias demo_model demo_client "lara") as [Hname _].
  by apply Hname.
Defined.

Lemma head_filter_list_find {A} (P : A -> Prop) `{!forall x, Decision (P x)} (l : list A) :
  head (filter P l) = snd <$> list_find P l.
Proof.
  induction l as [| x l IH]; [done |].
  rewrite filter_cons. simpl. destruct (decide (P x)); [done |].
  rewrite IH. by destruct (list_find P l) as [[i y] |].
Qed.

(** X17.  [get_user_facility] answers with the first facility of the user
    that has the requested id, under [facility]; when the user has none, it
    raises the data model's [NotFound], answered with 404 and the text
    "Facility (f) not associated with user (u)". *)
Theorem get_user_facility_first
    (dm : DataModel) (admin : Client) (req : Request) (user_id facility_id : Z)
    (user : UserObj) (all : list FacilityObj) :
  User_from_id dm user_id = Returns user ->
  User_facilities dm user = Returns all ->
  (forall i facility,
     list_find (fun f => Facility_id f = facility_id) all = Some (i, facility) ->
     result (endpoint "application/json"
               (served (fun _ => get_user_facility dm admin user_id facility_id)) req) =
       Returns (Some (success_response
                        [("facility", JDict (Facility_to_json facility))]))) /\
  (list_find (fun f => Facility_id f = facility_id) all = None ->
   result (endpoint "application/json"
             (served (fun _ => get_user_facility dm admin user_id facility_id)) req) =
     Returns (Some (error_response 404 "Error"
                      ("Facility (" ++ pretty facility_id
                         ++ ") not associated with user (" ++ pretty user_id ++ ")")))).
Proof.
  intros Hfound Hall.
  pose proof (head_filter_list_find (fun f => Facility_id f = facility_id) all)
    as Hhead.
  split.
  - intros i facility Hfind. rewrite Hfind in Hhead. simpl in Hhead.
    apply (served_payload (fun _ => get_user_facility dm admin user_id facility_id)
             req [Call_from_id user_id; Call_facilities user]).
    unfold get_user_facility. run_handler. rewrite Hfound. simpl. rewrite Hall.
    simpl. destruct (filter _ all) as [| first rest]; [done |].
    simpl in Hhead. by injection Hhead as ->.
  - intros Hfind. rewrite Hfind in Hhead. simpl in Hhead.
    apply (served_registered
             (fun _ => get_user_facility dm admin user_id facility_id) req
             [Call_from_id user_id; Call_facilities user]
             (mk_exc RecordNotFound
                ("Facility (" ++ pretty facility_id
                   ++ ") not associated with user (" ++ pretty user_id ++ ")")) 404);
      [| decide_closed].
    unfold get_user_facility. run_handler. rewrite Hfound. simpl. rewrite Hall.
    simpl. by destruct (filter _ all) as [| first rest].
Qed.

Lemma get_user_facility_first_witness :
  result (endpoint "application/json"
            (served (fun _ => get_user_facility demo_model demo_client 1 5))
            sample_request) =
    Returns (Some (success_response
                     [("facility", JDict [("id", JInt 5); ("name", JStr "KPNO")])])) /\
  result (endpoint "application/json"
            (served (fun _ => get_user_facility demo_model demo_client 1 6))
            sample_request) =
    Returns (Some (error_response 404 "Error"
                     "Facility (6) not associated with user (1)")).
Proof.
  split.
  - destruct (get_user_facility_first demo_model demo_client sample_request 1 5
                lara demo_facilities eq_refl eq_refl) as [Hfirst _].
    by apply (Hfirst 1%nat (mk_FacilityObj 5 [("id", JInt 5); ("name", JStr "KPNO")])).
  - destruct (get_user_facility_first demo_model demo_client sample_request 1 6
                lara demo_facilities eq_refl eq_refl) as [_ Hnone].
    by apply Hnone.
Defined.

(** X18.  The three handlers that read ([get_user],
    [get_all_user_facilities], [get_user_facility]) make no call that
    changes the database, whatever the data model answers. *)
Theorem read_handlers_never_write (dm : DataModel) (admin : Client) (c : Call) :
  (forall text, c ∈ asked (get_user dm admin text) -> is_write c = false) /\
  (forall user_id,
     c ∈ asked (get_all_user_facilities dm admin user_id) -> is_write c = false) /\
  (forall user_id facility_id,
     c ∈ asked (get_user_facility dm admin user_id facility_id) ->
     is_write c = false).
Proof.
  assert (Hreads : forall calls : list Call,
            Forall (fun c' => is_write c' = false) calls ->
            c ∈ calls -> is_write c = false).
  { intros calls Hall Hc. by apply (proj1 (Forall_forall _ _) Hall). }
  split; [| split].
  - intros text. unfold get_user.
    destruct (py_int dm text) as [n |]; run_handler.
    + destruct (User_from_id dm n) as [user | error]; simpl;
        [| destruct (isinstance error ValueError);
           [destruct (User_from_alias dm text) |]];
        simpl; apply Hreads; repeat constructor.
    + destruct (User_from_alias dm text); simpl; apply Hreads; repeat constructor.
  - intros user_id. unfold get_all_user_facilities. run_handler.
    destruct (User_from_id dm user_id) as [user | error]; simpl;
      [destruct (User_facilities dm user) |];
      simpl; apply Hreads; repeat constructor.
  - intros user_id facility_id. unfold get_user_facility. run_handler.
    destruct (User_from_id dm user_id) as [user | error]; simpl;
      [destruct (User_facilities dm user) as [all | error];
       [destruct (filter _ all) |] |];
      simpl; apply Hreads; repeat constructor.
Qed.
